(** * IEEE DOCX generator: a shallow embedding of
      [backend/services/docx_generator.py] and [backend/models/schemas.py]

    The generator builds a python-docx document by appending paragraphs to
    one in-progress document object held in [self.doc], while a counter
    [self.figure_counter] numbers the figure captions.  The embedding keeps
    that shape: the generator object is a record, every method is a
    computation in a small state-and-exception monad over that record, and
    [for] loops are [for_each] over the list they iterate.

    What python-docx and the Python runtime decide (Unicode case mapping,
    whitespace handling, image decoding, serialisation) is collected in the
    class [Runtime]; every theorem holds for any implementation of it, and
    an ASCII instance is provided to run the model on concrete papers.

    The text-structuring service, [backend/services/ai_processor.py], and
    the HTTP handlers, [backend/routes/paper.py] with the limits of
    [backend/config.py], follow the generator: pure functions of the
    answer of the model, and handlers as functions of the module globals
    they read and write.  What the language model, the JSON parser and
    the web framework decide is the class [Services]. *)

From Stdlib Require Import ZArith String Ascii DecimalString.
From stdpp Require Import base option list gmap strings.

Local Open Scope Z_scope.
Local Open Scope string_scope.
Local Open Scope list_scope.

(** ** Python built-ins *)

Definition bytes := list Byte.byte.

Inductive exn := IndexError | AttributeError | ImageError.

(** [l[i]] for a Python list and a Python [int]: negative positions count
    from the end, anything outside [-len(l) .. len(l)-1] raises. *)
Definition py_getitem {A} (l : list A) (i : Z) : option A :=
  if bool_decide (0 <= i) then l !! Z.to_nat i
  else if bool_decide (- Z.of_nat (length l) <= i)
       then l !! Z.to_nat (Z.of_nat (length l) + i)
       else None.

(** [len(l)] as a Python [int]. *)
Definition len {A} (l : list A) : Z := Z.of_nat (length l).

(** [str(n)] for a Python [int]. *)
Definition str (n : Z) : string := NilZero.string_of_int (Z.to_int n).

(** [sep.join(parts)]. *)
Definition join (sep : string) (parts : list string) : string :=
  String.concat sep parts.

(** [enumerate(l, start)]. *)
Fixpoint enumerate {A} (start : Z) (l : list A) : list (Z * A) :=
  match l with
  | [] => []
  | x :: l' => (start, x) :: enumerate (start + 1) l'
  end.

(** [s.split('\n\n')]: left-to-right, non-overlapping; [acc] is the piece
    being read. *)
Fixpoint split_blank_lines (s acc : string) : list string :=
  match s with
  | EmptyString => [acc]
  | String "010"%char (String "010"%char s') => acc :: split_blank_lines s' EmptyString
  | String c s' => split_blank_lines s' (acc +:+ String c EmptyString)
  end.

(** ** models/schemas.py *)

Record PaperSection := {
  heading : string;
  content : string
}.

Record Figure := {
  index : Z;
  caption : string;
  placement : string
}.

Record StructuredPaper := {
  title : string;
  authors : string;
  abstract : string;
  keywords : list string;
  sections : list PaperSection;
  figures : list Figure;
  references : list string
}.

#[global] Instance Figure_eq_dec : EqDecision Figure.
Proof. solve_decision. Defined.

(** ** The python-docx document, as far as the generator touches it *)

(** [Inches(x)] with [x] written in thousandths of an inch, and [Pt(n)]. *)
Inductive Length := Inches (thousandths : Z) | Pt (points : Z).

Definition emu (l : Length) : Z :=
  match l with
  | Inches t => t * 914400 / 1000
  | Pt p => p * 12700
  end.

(** [Length.twips]: EMU divided by 635 and rounded; 635 is odd, so no tie
    ever occurs and rounding half up is rounding to nearest. *)
Definition twips (l : Length) : Z := (2 * emu l + 635) / 1270.

Inductive Alignment := CENTER | JUSTIFY.

Record Style := {
  style_name : string;
  font_name : string;
  font_size : Length;
  font_bold : bool;
  font_italic : bool;
  style_alignment : Alignment;
  space_before : option Length;
  space_after : option Length;
  style_first_line_indent : option Length;
  line_spacing : option Z
}.

(** A [w:cols] element with its [w:num] and [w:space] attributes. *)
Record Cols := {
  cols_num : string;
  cols_space : string
}.

(** A [w:sectPr]: page geometry and the [w:cols] children appended to it. *)
Record SectPr := {
  page_width : option Length;
  page_height : option Length;
  top_margin : option Length;
  bottom_margin : option Length;
  left_margin : option Length;
  right_margin : option Length;
  cols : list Cols
}.

Inductive Run :=
  | TextRun (text : string) (bold italic : bool)
  | PictureRun (image : bytes) (width : Length).

(** A [w:p].  [sectPr] is set on the paragraph that closes a layout
    section: the content up to and including it is laid out with these
    properties. *)
Record Paragraph := {
  style : option string;
  runs : list Run;
  alignment : option Alignment;
  left_indent : option Length;
  first_line_indent : option Length;
  sectPr : option SectPr
}.

(** The document: registered styles, body paragraphs in order, and the
    properties of the last (open) layout section. *)
Record Document := {
  styles : list Style;
  body : list Paragraph;
  last_sectPr : SectPr
}.

(** [Document()].  The default template of python-docx is not part of the
    repository: a new document is taken to have an empty body, no style
    and no section property of its own. *)
Definition empty_sectPr : SectPr :=
  {| page_width := None; page_height := None; top_margin := None;
     bottom_margin := None; left_margin := None; right_margin := None;
     cols := [] |}.

Definition new_Document : Document :=
  {| styles := []; body := []; last_sectPr := empty_sectPr |}.

Definition plain (sty : option string) (rs : list Run) : Paragraph :=
  {| style := sty; runs := rs; alignment := None; left_indent := None;
     first_line_indent := None; sectPr := None |}.

(** [doc.add_paragraph(text, style)]: the run is only created for a
    non-empty text. *)
Definition text_paragraph (txt : string) (sty : option string) : Paragraph :=
  plain sty (if bool_decide (txt = EmptyString) then [] else [TextRun txt false false]).

Definition append (p : Paragraph) (d : Document) : Document :=
  {| styles := styles d; body := body d ++ [p]; last_sectPr := last_sectPr d |}.

(** What the Python runtime and python-docx decide. *)
Class Runtime := {
  (** [str.lower] and [str.upper] *)
  lower : string -> string;
  upper : string -> string;
  (** [str.strip()] and [str.split()] with no argument *)
  strip : string -> string;
  split : string -> list string;
  (** whether [Document.add_picture] accepts these image bytes *)
  picture_ok : bytes -> bool;
  (** [Document.save] into a buffer, then [getvalue()] *)
  save : Document -> bytes
}.


(** ** services/docx_generator.py: the generator object and its monad *)

Record IEEEDocxGenerator := {
  doc : option Document;
  figure_counter : Z;
  table_counter : Z
}.

(** [IEEEDocxGenerator.__init__] *)
Definition __init__ : IEEEDocxGenerator :=
  {| doc := None; figure_counter := 0; table_counter := 0 |}.

(** A method call either returns a value or raises; in both cases the
    generator object is left in the state reached so far. *)
Inductive outcome (A : Type) :=
  | Return (a : A) (self : IEEEDocxGenerator)
  | Raise (e : exn) (self : IEEEDocxGenerator).
Arguments Return {A} a self.
Arguments Raise {A} e self.

Definition M (A : Type) : Type := IEEEDocxGenerator -> outcome A.

Definition ret {A} (a : A) : M A := fun self => Return a self.

Definition bind {A B} (m : M A) (k : A -> M B) : M B := fun self =>
  match m self with
  | Return a self' => k a self'
  | Raise e self' => Raise e self'
  end.

Definition raise {A} (e : exn) : M A := fun self => Raise e self.

(** [try: m except Exception: handler] *)
Definition try_except {A} (m handler : M A) : M A := fun self =>
  match m self with
  | Return a self' => Return a self'
  | Raise _ self' => handler self'
  end.

Declare Scope gen_scope.
Delimit Scope gen_scope with gen.
Notation "x <- m ;; k" := (bind m (fun x => k))
  (at level 100, m at next level, right associativity) : gen_scope.
Notation "m ;; k" := (bind m (fun _ => k))
  (at level 100, k at level 200, right associativity) : gen_scope.
Local Open Scope gen_scope.

(** [for x in l: body(x)] *)
Fixpoint for_each {A} (l : list A) (body : A -> M unit) : M unit :=
  match l with
  | [] => ret tt
  | x :: l' => body x ;; for_each l' body
  end.

(** A python-docx call on [self.doc]; [None] has no such attribute. *)
Definition on_doc (f : Document -> Document) : M unit := fun self =>
  match doc self with
  | Some d =>
      Return tt {| doc := Some (f d); figure_counter := figure_counter self;
                   table_counter := table_counter self |}
  | None => Raise AttributeError self
  end.

Definition get_doc : M Document := fun self =>
  match doc self with
  | Some d => Return d self
  | None => Raise AttributeError self
  end.

(** [self.doc.add_paragraph(...)], with the paragraph as it stands once the
    statements that follow have set its runs and attributes. *)
Definition add_paragraph (p : Paragraph) : M unit := on_doc (append p).

(** [self.doc.paragraphs[-1]] followed by a mutation of that paragraph. *)
Definition on_last_paragraph (f : Paragraph -> Paragraph) : M unit :=
  d <- get_doc ;;
  match py_getitem (body d) (-1) with
  | Some p =>
      on_doc (fun d => {| styles := styles d;
                          body := removelast (body d) ++ [f p];
                          last_sectPr := last_sectPr d |})
  | None => raise IndexError
  end.

Definition get_figure_counter : M Z := fun self => Return (figure_counter self) self.

(** [self.figure_counter += 1] *)
Definition incr_figure_counter : M unit := fun self =>
  Return tt {| doc := doc self; figure_counter := figure_counter self + 1;
               table_counter := table_counter self |}.

(** *** IEEE formatting constants *)

Definition PAGE_WIDTH := Inches 8270.
Definition PAGE_HEIGHT := Inches 11690.
Definition MARGIN_TOP := Inches 750.
Definition MARGIN_BOTTOM := Inches 1000.
Definition MARGIN_LEFT := Inches 625.
Definition MARGIN_RIGHT := Inches 625.
Definition COLUMN_GAP := Inches 250.

Definition FONT_TITLE := "Times New Roman".
Definition FONT_SIZE_TITLE := Pt 24.
Definition FONT_SIZE_AUTHOR := Pt 11.
Definition FONT_SIZE_ABSTRACT := Pt 9.
Definition FONT_SIZE_BODY := Pt 10.
Definition FONT_SIZE_HEADING := Pt 10.
Definition FONT_SIZE_CAPTION := Pt 8.

(** The six assignments to a layout section made by [_setup_document] and
    repeated by [_set_two_column]. *)
Definition set_geometry (sp : SectPr) : SectPr :=
  {| page_width := Some PAGE_WIDTH; page_height := Some PAGE_HEIGHT;
     top_margin := Some MARGIN_TOP; bottom_margin := Some MARGIN_BOTTOM;
     left_margin := Some MARGIN_LEFT; right_margin := Some MARGIN_RIGHT;
     cols := cols sp |}.

(** [sectPr.append(cols)] *)
Definition append_cols (c : Cols) (sp : SectPr) : SectPr :=
  {| page_width := page_width sp; page_height := page_height sp;
     top_margin := top_margin sp; bottom_margin := bottom_margin sp;
     left_margin := left_margin sp; right_margin := right_margin sp;
     cols := cols sp ++ [c] |}.

Definition on_last_section (f : SectPr -> SectPr) (d : Document) : Document :=
  {| styles := styles d; body := body d; last_sectPr := f (last_sectPr d) |}.

(** [doc.add_section()]: a new paragraph closes the section that was open,
    carrying a copy of its properties; the open section keeps them. *)
Definition doc_add_section (d : Document) : Document :=
  append {| style := None; runs := []; alignment := None; left_indent := None;
            first_line_indent := None; sectPr := Some (last_sectPr d) |} d.

(** *** _create_styles *)

Definition ieee_styles : list Style :=
  [ {| style_name := "IEEE Title"; font_name := FONT_TITLE;
       font_size := FONT_SIZE_TITLE; font_bold := true; font_italic := false;
       style_alignment := CENTER; space_before := None;
       space_after := Some (Pt 12); style_first_line_indent := None;
       line_spacing := None |};
    {| style_name := "IEEE Author"; font_name := FONT_TITLE;
       font_size := FONT_SIZE_AUTHOR; font_bold := false; font_italic := false;
       style_alignment := CENTER; space_before := None;
       space_after := Some (Pt 12); style_first_line_indent := None;
       line_spacing := None |};
    {| style_name := "IEEE Abstract Label"; font_name := FONT_TITLE;
       font_size := FONT_SIZE_ABSTRACT; font_bold := true; font_italic := true;
       style_alignment := JUSTIFY; space_before := None;
       space_after := Some (Pt 6); style_first_line_indent := None;
       line_spacing := None |};
    {| style_name := "IEEE Abstract"; font_name := FONT_TITLE;
       font_size := FONT_SIZE_ABSTRACT; font_bold := false; font_italic := true;
       style_alignment := JUSTIFY; space_before := None;
       space_after := Some (Pt 12); style_first_line_indent := None;
       line_spacing := None |};
    {| style_name := "IEEE Heading"; font_name := FONT_TITLE;
       font_size := FONT_SIZE_HEADING; font_bold := true; font_italic := false;
       style_alignment := CENTER; space_before := Some (Pt 12);
       space_after := Some (Pt 6); style_first_line_indent := None;
       line_spacing := None |};
    {| style_name := "IEEE Body"; font_name := FONT_TITLE;
       font_size := FONT_SIZE_BODY; font_bold := false; font_italic := false;
       style_alignment := JUSTIFY; space_before := None;
       space_after := Some (Pt 0);
       style_first_line_indent := Some (Inches 250); line_spacing := Some 1 |};
    {| style_name := "IEEE Caption"; font_name := FONT_TITLE;
       font_size := FONT_SIZE_CAPTION; font_bold := false; font_italic := false;
       style_alignment := CENTER; space_before := Some (Pt 6);
       space_after := Some (Pt 12); style_first_line_indent := None;
       line_spacing := None |};
    {| style_name := "IEEE Keywords"; font_name := FONT_TITLE;
       font_size := FONT_SIZE_ABSTRACT; font_bold := false; font_italic := true;
       style_alignment := JUSTIFY; space_before := None;
       space_after := Some (Pt 12); style_first_line_indent := None;
       line_spacing := None |} ].

(** [if name not in [s.name for s in styles]: styles.add_style(...)] *)
Definition add_style_if_absent (st : Style) (d : Document) : Document :=
  if bool_decide (style_name st ∈ (style_name <$> styles d)) then d
  else {| styles := styles d ++ [st]; body := body d;
          last_sectPr := last_sectPr d |}.

Definition _create_styles : M unit :=
  for_each ieee_styles (fun st => on_doc (add_style_if_absent st)).

Section Generator.
Context {R : Runtime}.

(** *** _setup_document *)

Definition _setup_document : M unit :=
  (fun self => Return tt {| doc := Some new_Document; figure_counter := 0;
                            table_counter := 0 |}) ;;
  on_doc (on_last_section set_geometry) ;;
  _create_styles.

(** *** _set_two_column *)

Definition two_columns : Cols :=
  {| cols_num := "2"; cols_space := str (twips COLUMN_GAP) |}.

Definition _set_two_column : M unit :=
  on_doc doc_add_section ;;
  on_doc (on_last_section set_geometry) ;;
  on_doc (on_last_section (append_cols two_columns)).

(** *** _add_title, _add_authors, _add_abstract, _add_keywords *)

Definition _add_title (title : string) : M unit :=
  add_paragraph (text_paragraph title (Some "IEEE Title")).

Definition _add_authors (authors : string) : M unit :=
  add_paragraph (text_paragraph authors (Some "IEEE Author")).

Definition _add_abstract (abstract : string) : M unit :=
  add_paragraph
    (plain (Some "IEEE Abstract") [TextRun ("Abstract—" +:+ abstract) true true]).

Definition _add_keywords (keywords : list string) : M unit :=
  add_paragraph
    (plain (Some "IEEE Keywords")
       [TextRun "Keywords—" true true; TextRun (join "; " keywords) false false]).

(** *** _add_section_heading *)

Definition roman_numerals : list string :=
  ["I"; "II"; "III"; "IV"; "V"; "VI"; "VII"; "VIII"; "IX"; "X"].

Definition _add_section_heading (heading : string) (number : Z) : M unit :=
  numeral <-
    (if bool_decide (number <= len roman_numerals)
     then match py_getitem roman_numerals (number - 1) with
          | Some r => ret r
          | None => raise IndexError
          end
     else ret (str number)) ;;
  add_paragraph
    (plain (Some "IEEE Heading")
       [TextRun (numeral +:+ ". " +:+ upper heading) true false]).

(** *** _add_body_text *)

Definition _add_body_text (content : string) : M unit :=
  let paragraphs := split_blank_lines (strip content) EmptyString in
  for_each paragraphs (fun para_text =>
    let para_text := strip para_text in
    if bool_decide (para_text ≠ EmptyString)
    then let para_text := join " " (split para_text) in
         add_paragraph (text_paragraph para_text (Some "IEEE Body"))
    else ret tt).

(** *** _add_figure *)

(** [doc.add_picture(stream, width=Inches(3.0))]: a new paragraph holding
    the inline picture, or an exception when the bytes are not an image
    python-docx can embed. *)
Definition add_picture (image_data : bytes) (width : Length) : M unit :=
  d <- get_doc ;;
  if picture_ok image_data
  then add_paragraph (plain None [PictureRun image_data width])
  else raise ImageError.

Definition set_alignment (a : Alignment) (p : Paragraph) : Paragraph :=
  {| style := style p; runs := runs p; alignment := Some a;
     left_indent := left_indent p; first_line_indent := first_line_indent p;
     sectPr := sectPr p |}.

Definition _add_figure (image_data : bytes) (caption : string) : M unit :=
  incr_figure_counter ;;
  try_except
    (add_picture image_data (Inches 3000) ;;
     on_last_paragraph (set_alignment CENTER))
    (add_paragraph
       (set_alignment CENTER
          (text_paragraph "[Image could not be processed]" None))) ;;
  n <- get_figure_counter ;;
  add_paragraph
    (plain (Some "IEEE Caption")
       [TextRun ("Fig. " +:+ str n +:+ ". ") true false;
        TextRun caption false false]).

(** *** _add_references *)

Definition clear (p : Paragraph) : Paragraph :=
  {| style := style p; runs := []; alignment := alignment p;
     left_indent := left_indent p; first_line_indent := first_line_indent p;
     sectPr := sectPr p |}.

Definition add_run (r : Run) (p : Paragraph) : Paragraph :=
  {| style := style p; runs := runs p ++ [r]; alignment := alignment p;
     left_indent := left_indent p; first_line_indent := first_line_indent p;
     sectPr := sectPr p |}.

Definition reference_paragraph (i : Z) (ref : string) : Paragraph :=
  {| style := Some "IEEE Body";
     runs := [TextRun ("[" +:+ str i +:+ "] " +:+ ref) false false];
     alignment := None;
     left_indent := Some (Inches 250);
     first_line_indent := Some (Inches (-250));
     sectPr := None |}.

Definition _add_references (references : list string) : M unit :=
  _add_section_heading "References" 99 ;;
  on_last_paragraph (fun p => add_run (TextRun "REFERENCES" true false) (clear p)) ;;
  for_each (enumerate 1 references) (fun '(i, ref) =>
    add_paragraph (reference_paragraph i ref)).

(** *** generate *)

(** The loop that fills [figures_by_section]. *)
Definition group_figures (figs : list Figure) : gmap string (list Figure) :=
  foldl (fun (figures_by_section : gmap string (list Figure)) fig =>
           let section_name := lower (placement fig) in
           let figures_by_section :=
             match figures_by_section !! section_name with
             | None => <[section_name := []]> figures_by_section
             | Some _ => figures_by_section
             end in
           alter (fun l => l ++ [fig]) section_name figures_by_section)
        ∅ figs.

(** [{fig.index for fig in paper.figures}] *)
Definition placed_indices (figs : list Figure) : gset Z :=
  list_to_set (index <$> figs).

(** [images or []] *)
Definition or_empty (images : option (list bytes)) : list bytes :=
  default [] images.

(** Lines 264-276: set-up, title block, switch to two columns. *)
Definition add_front_matter (paper : StructuredPaper) : M unit :=
  _setup_document ;;
  _add_title (title paper) ;;
  _add_authors (authors paper) ;;
  _add_abstract (abstract paper) ;;
  _add_keywords (keywords paper) ;;
  _set_two_column.

(** Lines 294-296: the figures of one section. *)
Definition add_section_figures (images : list bytes) (figs : list Figure) : M unit :=
  for_each figs (fun fig =>
    if bool_decide (index fig < len images)
    then match py_getitem images (index fig) with
         | Some image_data => _add_figure image_data (caption fig)
         | None => raise IndexError
         end
    else ret tt).

(** Lines 288-296: the body of the loop over the sections. *)
Definition add_section (figures_by_section : gmap string (list Figure))
    (images : list bytes) (i : Z) (section : PaperSection) : M unit :=
  _add_section_heading (heading section) i ;;
  _add_body_text (content section) ;;
  let section_key := lower (heading section) in
  match figures_by_section !! section_key with
  | Some figs => add_section_figures images figs
  | None => ret tt
  end.

(** Lines 278-296: the figure map and the loop over the sections. *)
Definition add_sections (paper : StructuredPaper) (images : list bytes) : M unit :=
  let figures_by_section := group_figures (figures paper) in
  for_each (enumerate 1 (sections paper)) (fun '(i, section) =>
    add_section figures_by_section images i section).

(** Lines 301-303: the body of the loop over the images. *)
Definition add_remaining_image (placed_indices : gset Z) (i : Z)
    (img_data : bytes) : M unit :=
  if bool_decide (i ∉ placed_indices)
  then incr_figure_counter ;;
       n <- get_figure_counter ;;
       _add_figure img_data ("Figure " +:+ str n)
  else ret tt.

(** Lines 298-303: the images no figure names. *)
Definition add_remaining_images (paper : StructuredPaper) (images : list bytes) : M unit :=
  let placed_indices := placed_indices (figures paper) in
  for_each (enumerate 0 images) (fun '(i, img_data) =>
    add_remaining_image placed_indices i img_data).

(** Lines 305-314: references, then serialisation. *)
Definition generate (paper : StructuredPaper) (images : option (list bytes)) : M bytes :=
  let images := or_empty images in
  add_front_matter paper ;;
  add_sections paper images ;;
  add_remaining_images paper images ;;
  (if bool_decide (references paper ≠ [])
   then _add_references (references paper)
   else ret tt) ;;
  d <- get_doc ;;
  ret (save d).

(** *** The module-level singleton and its caller

    [_generator] is the module global; [get_docx_generator] creates the
    generator on first use and returns the one object from then on. *)
Definition get_docx_generator (_generator : option IEEEDocxGenerator)
    : IEEEDocxGenerator * option IEEEDocxGenerator :=
  match _generator with
  | None => (__init__, Some __init__)
  | Some g => (g, Some g)
  end.

(** routes/paper.py, [export_docx]: [get_docx_generator().generate(paper,
    _session_images)].  The generator returned is the object the global
    names, so what [generate] does to it is what the global holds after
    the call. *)
Definition export_docx (paper : StructuredPaper) (_session_images : list bytes)
    (_generator : option IEEEDocxGenerator)
    : (bytes + exn) * option IEEEDocxGenerator :=
  let '(generator, _) := get_docx_generator _generator in
  match generate paper (Some _session_images) generator with
  | Return docx_bytes generator' => (inl docx_bytes, Some generator')
  | Raise e generator' => (inr e, Some generator')
  end.

End Generator.

(** ** An ASCII runtime

    The behaviour of the runtime functions on ASCII text, with every image
    accepted except the empty one and a serialiser that keeps the number of
    body paragraphs; it serves to run the generator on concrete papers. *)

Module AsciiRuntime.

Definition is_space (c : ascii) : bool :=
  let n := nat_of_ascii c in
  ((9 <=? n) && (n <=? 13) || (28 <=? n) && (n <=? 32))%nat.

Definition lower_char (c : ascii) : ascii :=
  let n := nat_of_ascii c in
  if ((65 <=? n) && (n <=? 90))%nat then ascii_of_nat (n + 32) else c.

Definition upper_char (c : ascii) : ascii :=
  let n := nat_of_ascii c in
  if ((97 <=? n) && (n <=? 122))%nat then ascii_of_nat (n - 32) else c.

Fixpoint map_string (f : ascii -> ascii) (s : string) : string :=
  match s with
  | EmptyString => EmptyString
  | String c s' => String (f c) (map_string f s')
  end.

Fixpoint lstrip (s : string) : string :=
  match s with
  | EmptyString => EmptyString
  | String c s' => if is_space c then lstrip s' else s
  end.

Fixpoint rstrip (s : string) : string :=
  match s with
  | EmptyString => EmptyString
  | String c s' =>
      let r := rstrip s' in
      if is_space c && bool_decide (r = EmptyString) then EmptyString else String c r
  end.

Fixpoint words (s acc : string) : list string :=
  match s with
  | EmptyString => if bool_decide (acc = EmptyString) then [] else [acc]
  | String c s' =>
      if is_space c
      then (if bool_decide (acc = EmptyString) then words s' EmptyString else acc :: words s' EmptyString)
      else words s' (acc +:+ String c EmptyString)
  end.

#[export] Instance ascii_runtime : Runtime := {|
  lower := map_string lower_char;
  upper := map_string upper_char;
  strip := fun s => rstrip (lstrip s);
  split := fun s => words s EmptyString;
  picture_ok := fun data => bool_decide (data ≠ []);
  save := fun d => repeat Byte.x00 (length (body d))
|}.

End AsciiRuntime.

(** * The layout of the generated document

    The paragraphs each method appends and the document [generate]
    builds, written as functions of the paper and the images; the
    verification below shows that the generator produces exactly these. *)

Section Layout.
Context {R : Runtime}.

(** ** States that hold a document *)

Definition st (d : Document) (c t : Z) : IEEEDocxGenerator :=
  {| doc := Some d; figure_counter := c; table_counter := t |}.

(** [extend d ps]: [d] after the paragraphs [ps] have been added to it. *)
Definition extend (d : Document) (ps : list Paragraph) : Document :=
  {| styles := styles d; body := body d ++ ps; last_sectPr := last_sectPr d |}.

(** ** The paragraphs the methods produce *)

Definition picture_paragraph (img : bytes) : Paragraph :=
  {| style := None; runs := [PictureRun img (Inches 3000)];
     alignment := Some CENTER; left_indent := None;
     first_line_indent := None; sectPr := None |}.

Definition placeholder_paragraph : Paragraph :=
  {| style := None;
     runs := [TextRun "[Image could not be processed]" false false];
     alignment := Some CENTER; left_indent := None;
     first_line_indent := None; sectPr := None |}.

Definition image_paragraph (img : bytes) : Paragraph :=
  if picture_ok img then picture_paragraph img else placeholder_paragraph.

Definition caption_paragraph (n : Z) (cap : string) : Paragraph :=
  plain (Some "IEEE Caption")
    [TextRun ("Fig. " +:+ str n +:+ ". ") true false; TextRun cap false false].

Definition heading_paragraph (txt : string) : Paragraph :=
  plain (Some "IEEE Heading") [TextRun txt true false].

(** One rendered figure: the image (or its placeholder), then the caption. *)
Definition rendered_figure (n : Z) (img : bytes) (cap : string) : list Paragraph :=
  [image_paragraph img; caption_paragraph n cap].

Definition body_paragraphs (content : string) : list Paragraph :=
  flat_map (fun piece =>
              let para_text := strip piece in
              if bool_decide (para_text ≠ EmptyString)
              then [text_paragraph (join " " (split para_text)) (Some "IEEE Body")]
              else [])
           (split_blank_lines (strip content) EmptyString).

(** The numeral of the section at 1-based position [n], positions being
    positive. *)
Definition numeral (n : Z) : string :=
  if bool_decide (n <= 10) then default EmptyString (roman_numerals !! Z.to_nat (n - 1))
  else str n.

(** The references block: the unnumbered heading, then one entry per
    reference. *)
Definition references_block (refs : list string) : list Paragraph :=
  if bool_decide (refs ≠ []) then
    heading_paragraph "REFERENCES"
    :: imap (fun i ref => reference_paragraph (Z.of_nat i + 1) ref) refs
  else [].

(** ** What a run of the generator amounts to

    [runs_to o ok a self']: the outcome [o] is the return of [a] in state
    [self'] when [ok] holds, and an [IndexError] otherwise. *)
Definition runs_to {A} (o : outcome A) (ok : Prop) (a : A) (self' : IEEEDocxGenerator) : Prop :=
  (ok -> o = Return a self') /\ (~ ok -> exists s, o = Raise IndexError s).

(** ** The figures of one section *)

(** [fetchable images f]: [images[f.index]] does not raise once
    [f.index < len(images)] has been checked. *)
Definition fetchable (images : list bytes) (f : Figure) : Prop :=
  - len images <= index f.

Definition in_range (images : list bytes) (f : Figure) : Prop :=
  index f < len images.

#[global] Instance fetchable_dec images f : Decision (fetchable images f).
Proof. unfold fetchable. apply _. Defined.

#[global] Instance in_range_dec images f : Decision (in_range images f).
Proof. unfold in_range. apply _. Defined.

Definition image_of (images : list bytes) (f : Figure) : bytes :=
  default [] (py_getitem images (index f)).

(** The paragraphs of the figures [fs], rendered in this order when the
    counter stands at [c]. *)
Definition figures_block (images : list bytes) (c : Z) (fs : list Figure) : list Paragraph :=
  concat (imap (fun j f => rendered_figure (c + Z.of_nat j + 1)
                             (image_of images f) (caption f)) fs).

(** ** The sections *)

(** The figures rendered after section [s]: those placed in it, in the
    order of the figure list, that pass the index check. *)
Definition section_figures (figs : list Figure) (images : list bytes)
    (s : PaperSection) : list Figure :=
  filter (in_range images)
    (filter (fun f => lower (placement f) = lower (heading s)) figs).

(** All figures rendered by the loop over [ss], in rendering order. *)
Definition rendered (figs : list Figure) (images : list bytes)
    (ss : list PaperSection) : list Figure :=
  flat_map (section_figures figs images) ss.

(** The paragraphs of the section at position [i], rendered when the
    counter stands at [c]. *)
Definition section_block (figs : list Figure) (images : list bytes)
    (i c : Z) (s : PaperSection) : list Paragraph :=
  heading_paragraph (numeral i +:+ ". " +:+ upper (heading s))
  :: body_paragraphs (content s)
  ++ figures_block images c (section_figures figs images s).

(** One block per section; the [n]-th starts numbering its figures after
    those rendered by the sections before it. *)
Definition section_blocks (figs : list Figure) (images : list bytes)
    (i c : Z) (ss : list PaperSection) : list (list Paragraph) :=
  imap (fun n s => section_block figs images (i + Z.of_nat n)
                     (c + len (rendered figs images (take n ss))) s) ss.

(** ** The remaining images *)

(** The images no figure names, with their positions, in ascending order
    of position. *)
Definition unreferenced (figs : list Figure) (images : list bytes) : list (Z * bytes) :=
  filter (fun x => x.1 ∉ placed_indices figs) (enumerate 0 images).

(** The paragraphs of the swept images [l] when the counter stands at
    [c]: the caption text is numbered from the counter after the loop's
    own increment, the caption paragraph after that of [_add_figure]. *)
Definition swept_block (c : Z) (l : list (Z * bytes)) : list Paragraph :=
  concat (imap (fun j x => rendered_figure (c + 2 * Z.of_nat j + 2) x.2
                             ("Figure " +:+ str (c + 2 * Z.of_nat j + 1))) l).

(** ** The front matter *)

Definition front_paragraphs (paper : StructuredPaper) : list Paragraph :=
  [ text_paragraph (title paper) (Some "IEEE Title");
    text_paragraph (authors paper) (Some "IEEE Author");
    plain (Some "IEEE Abstract") [TextRun ("Abstract—" +:+ abstract paper) true true];
    plain (Some "IEEE Keywords")
      [TextRun "Keywords—" true true;
       TextRun (join "; " (keywords paper)) false false];
    {| style := None; runs := []; alignment := None; left_indent := None;
       first_line_indent := None; sectPr := Some (set_geometry empty_sectPr) |} ].

Definition front_document (paper : StructuredPaper) : Document :=
  {| styles := ieee_styles;
     body := front_paragraphs paper;
     last_sectPr := append_cols two_columns (set_geometry empty_sectPr) |}.

(** ** The whole document *)

Definition layout (paper : StructuredPaper) (images : list bytes) : Document :=
  extend (front_document paper)
    (concat (section_blocks (figures paper) images 1 0 (sections paper))
     ++ swept_block (len (rendered (figures paper) images (sections paper)))
          (unreferenced (figures paper) images)
     ++ references_block (references paper)).

Definition final_counter (paper : StructuredPaper) (images : list bytes) : Z :=
  len (rendered (figures paper) images (sections paper))
  + 2 * len (unreferenced (figures paper) images).

(** ** Figures that fail the index check *)

Definition with_figures (paper : StructuredPaper) (figs : list Figure) : StructuredPaper :=
  {| title := title paper; authors := authors paper; abstract := abstract paper;
     keywords := keywords paper; sections := sections paper; figures := figs;
     references := references paper |}.

(** ** Section headings *)

(** Roman numerals by the usual subtractive rule. *)
Definition roman_table : list (nat * string) :=
  [ (1000, "M"); (900, "CM"); (500, "D"); (400, "CD"); (100, "C"); (90, "XC");
    (50, "L"); (40, "XL"); (10, "X"); (9, "IX"); (5, "V"); (4, "IV"); (1, "I") ]%nat.

Fixpoint to_roman_fuel (fuel n : nat) : string :=
  match fuel with
  | O => EmptyString
  | S fuel' =>
      match List.find (fun vr => (vr.1 <=? n)%nat) roman_table with
      | Some (v, r) => r +:+ to_roman_fuel fuel' (n - v)
      | None => EmptyString
      end
  end.

Definition to_roman (n : nat) : string := to_roman_fuel n n.

(** The numeral the specification asks for at 1-based position [n]. *)
Definition position_numeral (n : nat) : string :=
  if (n <=? 10)%nat then to_roman n else str (Z.of_nat n).

Definition is_heading (p : Paragraph) : Prop := style p = Some "IEEE Heading".

#[global] Instance is_heading_dec p : Decision (is_heading p).
Proof. unfold is_heading. apply _. Defined.

Definition without_references (paper : StructuredPaper) : StructuredPaper :=
  {| title := title paper; authors := authors paper; abstract := abstract paper;
     keywords := keywords paper; sections := sections paper;
     figures := figures paper; references := [] |}.

End Layout.

(** * Sample papers, run on the ASCII runtime *)

Module Examples.
Import AsciiRuntime.

Definition png : bytes := [Byte.x89; Byte.x50; Byte.x4e; Byte.x47].
Definition jpg : bytes := [Byte.xff; Byte.xd8; Byte.xff].

Definition mk_paper (ss : list PaperSection) (fs : list Figure)
    (refs : list string) : StructuredPaper :=
  {| title := "T"; authors := "[Author Name]"; abstract := "A"; keywords := ["k"];
     sections := ss; figures := fs; references := refs |}.

Definition intro : PaperSection := {| heading := "Introduction"; content := "A." |}.
Definition concl : PaperSection := {| heading := "Conclusion"; content := "B." |}.
Definition INTRO : PaperSection := {| heading := "INTRODUCTION"; content := "C." |}.

(** The runs of the caption paragraphs of a document, in order. *)
Definition captions (d : Document) : list (list Run) :=
  runs <$> filter (fun p => style p = Some "IEEE Caption") (body d).

Definition document_of (o : outcome bytes) : option Document :=
  match o with
  | Return _ self => doc self
  | Raise _ _ => None
  end.

(** What [generate] returns when it returns. *)
Definition returned (paper : StructuredPaper) (images : list bytes) : outcome bytes :=
  Return (save (layout paper images))
    (st (layout paper images) (final_counter paper images) 0).

(** No figure, two images: both are swept. *)
Definition two_images : StructuredPaper := mk_paper [intro; concl] [] ["[ref]"].

(** Two sections share a heading up to case; one figure is placed there,
    one names no image, one names no section; the third image is not an
    image, the last two are named by no figure. *)
Definition fig_intro : Figure :=
  {| index := 0; caption := "cap"; placement := "introduction" |}.
Definition fig_oor : Figure :=
  {| index := 5; caption := "oor"; placement := "Conclusion" |}.
Definition fig_lost : Figure :=
  {| index := 1; caption := "lost"; placement := "Nowhere" |}.

Definition sample : StructuredPaper :=
  mk_paper [intro; concl; INTRO] [fig_intro; fig_oor; fig_lost] ["[ref]"; "[ref2]"].

Definition sample_images : list bytes := [png; jpg; []; png].

Definition eleven : StructuredPaper := mk_paper (replicate 11 intro) [] [].

(** The exception of an outcome, if it raised. *)
Definition raised (o : outcome bytes) : option exn :=
  match o with
  | Return _ _ => None
  | Raise e _ => Some e
  end.

End Examples.

(** * Further observations on the generated document *)

Definition is_caption (p : Paragraph) : Prop := style p = Some "IEEE Caption".

#[global] Instance is_caption_dec p : Decision (is_caption p).
Proof. unfold is_caption. apply _. Defined.

(** The names of the styles a document has registered. *)
Definition style_names (d : Document) : list string := style_name <$> styles d.

(** [_create_styles] as a function of the document. *)
Definition register_styles (l : list Style) (d : Document) : Document :=
  foldl (fun d st => add_style_if_absent st d) d l.

(** * services/ai_processor.py, config.py and routes/paper.py

    The text-structuring service and the HTTP handlers around the
    generator. The language model, the JSON parser and the server
    framework are not part of the repository: what they decide is the
    class [Services]. *)

(** ** Strings *)

Definition nl : string := String "010"%char EmptyString.
Definition dquote : string := String "034"%char EmptyString.
Definition fence : string := "```".

(** [len(s)] for a Python [str]. *)
Definition str_len (s : string) : Z := Z.of_nat (String.length s).

(** [s[:n]] and [s[n:]] for [n >= 0]. *)
Fixpoint str_take (n : nat) (s : string) : string :=
  match n, s with
  | S n', String c s' => String c (str_take n' s')
  | _, _ => EmptyString
  end.

Fixpoint str_drop (n : nat) (s : string) : string :=
  match n, s with
  | S n', String _ s' => str_drop n' s'
  | _, _ => s
  end.

(** [str.join] of the characters [c] of [s] with [keep(c)], on the empty
    separator. *)
Fixpoint str_filter (keep : ascii -> bool) (s : string) : string :=
  match s with
  | EmptyString => EmptyString
  | String c s' => if keep c then String c (str_filter keep s') else str_filter keep s'
  end.

(** [s.lstrip()], [s.rstrip()] and [s.strip()] for a given [str.isspace]. *)
Fixpoint str_lstrip (sp : ascii -> bool) (s : string) : string :=
  match s with
  | EmptyString => EmptyString
  | String c s' => if sp c then str_lstrip sp s' else s
  end.

Fixpoint str_rstrip (sp : ascii -> bool) (s : string) : string :=
  match s with
  | EmptyString => EmptyString
  | String c s' =>
      match str_rstrip sp s' with
      | EmptyString => if sp c then EmptyString else String c EmptyString
      | r => String c r
      end
  end.

Definition str_strip (sp : ascii -> bool) (s : string) : string :=
  str_rstrip sp (str_lstrip sp s).

(** [s.partition(sep)] when [sep] occurs in [s]: what precedes and what
    follows its first occurrence. *)
Fixpoint str_partition (sep s : string) : option (string * string) :=
  if String.prefix sep s then Some (EmptyString, str_drop (String.length sep) s)
  else match s with
       | EmptyString => None
       | String c s' =>
           match str_partition sep s' with
           | Some (before, after) => Some (String c before, after)
           | None => None
           end
       end.

(** The suffix of [s] from the first [c] on, and the prefix of [s] up to
    and including the last [c]. *)
Fixpoint from_first (c : ascii) (s : string) : option string :=
  match s with
  | EmptyString => None
  | String a s' => if Ascii.eqb a c then Some s else from_first c s'
  end.

Fixpoint upto_last (c : ascii) (s : string) : option string :=
  match s with
  | EmptyString => None
  | String a s' =>
      match upto_last c s' with
      | Some r => Some (String a r)
      | None => if Ascii.eqb a c then Some (String a EmptyString) else None
      end
  end.

(** ** The answer of the model, parsed *)

(** The JSON objects of the answer are read only through
    [.get(key, default)] on the keys below; [None] is a missing key, and
    a present key holds a value of the type models/schemas.py declares
    for it. *)
Record SectionData := {
  sd_heading : option string;
  sd_content : option string
}.

Record FigureData := {
  fd_index : option Z;
  fd_caption : option string;
  fd_placement : option string
}.

Record PaperData := {
  pd_title : option string;
  pd_authors : option string;
  pd_abstract : option string;
  pd_keywords : option (list string);
  pd_sections : option (list SectionData);
  pd_figures : option (list FigureData);
  pd_references : option (list string)
}.

(** What [json.loads] makes of a text: an object as above, a
    [json.JSONDecodeError], or a value of another shape, on which the
    [.get] calls or the pydantic constructors that follow raise. *)
Inductive parsed :=
  | Parsed (paper_data : PaperData)
  | JSONDecodeError (msg : string)
  | Malformed (msg : string).

(** The exceptions the handlers tell apart, with [str(e)] as [msg]. *)
Inductive web_exn :=
  | ValueError (msg : string)
  | RuntimeError (msg : string)
  | HTTPException (status_code : Z) (detail : string)
  | OtherException (msg : string).

Class Services := {
  (** [str.isspace] and [str.isalnum] of a character; [isspace] is also
      the class [\s] of the regular expressions *)
  isspace : ascii -> bool;
  isalnum : ascii -> bool;
  (** [os.getenv("GEMINI_API_KEY")] *)
  GEMINI_API_KEY : option string;
  (** [genai.configure] and [genai.GenerativeModel]: the exception they
      raise, if any *)
  genai_init : option web_exn;
  (** [self.model.generate_content(...).text] for a user prompt: the
      text, or the message of the exception raised *)
  generate_content : string -> string + string;
  json_loads : string -> parsed;
  (** [str(e)] for an [HTTPException] and for an exception of the
      generator *)
  str_HTTPException : Z -> string -> string;
  str_exn : exn -> string
}.

(** ** config.py *)

Definition MAX_CONTENT_LENGTH : Z := 100000.
Definition MAX_IMAGES : Z := 10.
Definition MAX_IMAGE_SIZE_MB : Z := 5.

Section Service.
Context {R : Runtime} {S : Services}.

(** ** AIProcessor *)

(** [AIProcessor.__init__] *)
Definition AIProcessor__init__ : unit + web_exn :=
  match GEMINI_API_KEY with
  | None => inr (ValueError "GEMINI_API_KEY environment variable is not set")
  | Some key =>
      if bool_decide (key = EmptyString)
      then inr (ValueError "GEMINI_API_KEY environment variable is not set")
      else match genai_init with
           | Some e => inr e
           | None => inl tt
           end
  end.

(** [_clean_json_response].  The first pattern matches from the first
    fence that is followed by another one: an optional "json", white
    space, then the shortest text up to white space and the next fence.
    The second matches from the first opening brace to the last closing
    one. *)
Definition fenced (response_text : string) : option string :=
  match str_partition fence response_text with
  | None => None
  | Some (_, after) =>
      let after := if String.prefix "json" after then str_drop 4 after else after in
      match str_partition fence (str_lstrip isspace after) with
      | None => None
      | Some (inner, _) => Some (str_rstrip isspace inner)
      end
  end.

Definition braced (response_text : string) : option string :=
  match from_first "{"%char response_text with
  | None => None
  | Some rest => upto_last "}"%char rest
  end.

Definition _clean_json_response (response_text : string) : string :=
  match fenced response_text with
  | Some group1 => str_strip isspace group1
  | None =>
      match braced response_text with
      | Some group0 => group0
      | None => response_text
      end
  end.

(** [_validate_and_fix_sections] *)
Definition _validate_and_fix_sections (sections : list SectionData) : list PaperSection :=
  let validated :=
    flat_map (fun section_data =>
                let heading0 := default "Untitled Section" (sd_heading section_data) in
                let content0 := default EmptyString (sd_content section_data) in
                if bool_decide (content0 ≠ EmptyString)
                then [ {| heading := heading0; content := content0 |} ]
                else [])
             sections in
  let has_intro :=
    existsb (fun s => bool_decide (lower (heading s) = "introduction")) validated in
  let has_conclusion :=
    existsb (fun s => bool_decide (lower (heading s) = "conclusion")) validated in
  let validated :=
    if negb has_intro && bool_decide (validated ≠ [])
    then {| heading := "Introduction";
            content := "This paper presents the research and findings discussed in the following sections." |}
         :: validated
    else validated in
  let validated :=
    if negb has_conclusion && bool_decide (validated ≠ [])
    then validated
         ++ [ {| heading := "Conclusion";
                 content := "This paper has presented the key findings and contributions of the research." |} ]
    else validated in
  validated.

(** The prompt of [process_content]. *)
Definition image_note (image_count : Z) : string :=
  if bool_decide (image_count > 0)
  then nl +:+ nl +:+ "NOTE: The user has uploaded " +:+ str image_count
       +:+ " image(s). Please suggest appropriate placements and generate academic figure captions for them."
  else EmptyString.

Definition user_prompt (raw_content : string) (image_count : Z) : string :=
  "Transform the following raw content into a structured IEEE research paper." +:+ nl
  +:+ "        " +:+ nl
  +:+ "RAW CONTENT:" +:+ nl
  +:+ raw_content +:+ nl
  +:+ image_note image_count +:+ nl
  +:+ nl
  +:+ "Return ONLY valid JSON as specified in your instructions.".

(** Lines 174-181 of [process_content]: the figures kept. *)
Definition build_figures (paper_figures : list FigureData)
    (sections : list PaperSection) (image_count : Z) : list Figure :=
  flat_map (fun fig_data =>
              if bool_decide (default 0 (fd_index fig_data) < image_count)
              then [ {| index := default 0 (fd_index fig_data);
                        caption :=
                          default ("Figure " +:+ str (default 0 (fd_index fig_data) + 1))
                            (fd_caption fig_data);
                        placement :=
                          default (match sections with
                                   | s :: _ => heading s
                                   | [] => "Introduction"
                                   end)
                            (fd_placement fig_data) |} ]
              else [])
           paper_figures.

(** Lines 171-193 of [process_content]: from the parsed answer to the
    paper. *)
Definition build_paper (paper_data : PaperData) (image_count : Z) : StructuredPaper :=
  let sections := _validate_and_fix_sections (default [] (pd_sections paper_data)) in
  let figures := build_figures (default [] (pd_figures paper_data)) sections image_count in
  {| title := default "Untitled Research Paper" (pd_title paper_data);
     authors := default "[Author Name]" (pd_authors paper_data);
     abstract := default "Abstract not generated." (pd_abstract paper_data);
     keywords := default ["research"; "study"; "analysis"] (pd_keywords paper_data);
     sections := sections;
     figures := figures;
     references := default [] (pd_references paper_data) |}.

(** [process_content] *)
Definition process_content (raw_content : string) (image_count : Z)
    : StructuredPaper + web_exn :=
  match generate_content (user_prompt raw_content image_count) with
  | inr msg => inr (RuntimeError ("AI processing failed: " +:+ msg))
  | inl response_text =>
      let clean_json := _clean_json_response response_text in
      match json_loads clean_json with
      | JSONDecodeError msg =>
          inr (ValueError ("Failed to parse AI response as JSON: " +:+ msg))
      | Malformed msg => inr (RuntimeError ("AI processing failed: " +:+ msg))
      | Parsed paper_data => inl (build_paper paper_data image_count)
      end
  end.

(** [get_ai_processor]: [_processor] records whether the singleton
    exists. *)
Definition get_ai_processor (_processor : bool) : (unit + web_exn) * bool :=
  if _processor then (inl tt, true)
  else match AIProcessor__init__ with
       | inl tt => (inl tt, true)
       | inr e => (inr e, false)
       end.

(** ** routes/paper.py *)

Record UploadFile := {
  filename : string;
  file_data : bytes
}.

Inductive Response :=
  | HTTPError (status_code : Z) (detail : string)
  | GeneratePaperResponse (success : bool) (paper : option StructuredPaper)
      (error : option string)
  | StreamingResponse (content : bytes) (media_type : string)
      (content_disposition : string)
  | MessageResponse (message : string).

(** The module globals of routes/paper.py and of the two services. *)
Record Globals := {
  _session_images : list bytes;
  _session_paper : option StructuredPaper;
  _generator : option IEEEDocxGenerator;
  _processor : bool
}.

(** The loop of [generate_paper] over the uploads: the images appended to
    [_session_images] and the upload at which it raises, if any. *)
Fixpoint read_images (images : list UploadFile) (_session_images : list bytes)
    : list bytes * option UploadFile :=
  match images with
  | [] => (_session_images, None)
  | img :: images' =>
      let img_data := file_data img in
      if bool_decide (len img_data > MAX_IMAGE_SIZE_MB * 1024 * 1024)
      then (_session_images, Some img)
      else read_images images' (_session_images ++ [img_data])
  end.

(** The three [except] clauses of [generate_paper]. *)
Definition generate_paper_except (e : web_exn) : Response :=
  match e with
  | ValueError msg => GeneratePaperResponse false None (Some msg)
  | RuntimeError msg => GeneratePaperResponse false None (Some msg)
  | HTTPException status detail =>
      GeneratePaperResponse false None
        (Some ("Unexpected error: " +:+ str_HTTPException status detail))
  | OtherException msg =>
      GeneratePaperResponse false None (Some ("Unexpected error: " +:+ msg))
  end.

Definition generate_paper (raw_content : string) (images : list UploadFile)
    (g : Globals) : Response * Globals :=
  if bool_decide (str_len raw_content > MAX_CONTENT_LENGTH)
  then (HTTPError 400
          ("Content exceeds maximum length of " +:+ str MAX_CONTENT_LENGTH
           +:+ " characters"), g)
  else if bool_decide (len images > MAX_IMAGES)
  then (HTTPError 400 ("Maximum " +:+ str MAX_IMAGES +:+ " images allowed"), g)
  else
    let '(stored, oversize) := read_images images [] in
    match oversize with
    | Some img =>
        (generate_paper_except
           (HTTPException 400
              ("Image " +:+ filename img +:+ " exceeds maximum size of "
               +:+ str MAX_IMAGE_SIZE_MB +:+ "MB")),
         {| _session_images := stored; _session_paper := _session_paper g;
            _generator := _generator g; _processor := _processor g |})
    | None =>
        match get_ai_processor (_processor g) with
        | (inr e, processor') =>
            (generate_paper_except e,
             {| _session_images := stored; _session_paper := _session_paper g;
                _generator := _generator g; _processor := processor' |})
        | (inl _, processor') =>
            match process_content raw_content (len stored) with
            | inr e =>
                (generate_paper_except e,
                 {| _session_images := stored; _session_paper := _session_paper g;
                    _generator := _generator g; _processor := processor' |})
            | inl paper =>
                (GeneratePaperResponse true (Some paper) None,
                 {| _session_images := stored; _session_paper := Some paper;
                    _generator := _generator g; _processor := processor' |})
            end
        end
    end.

(** Lines 99-102 of [export_docx]: the file name. *)
Definition filename_char (c : ascii) : bool :=
  isalnum c || Ascii.eqb c " "%char || Ascii.eqb c "-"%char || Ascii.eqb c "_"%char.

Definition safe_title (title : string) : string :=
  let kept := str_strip isspace (str_filter filename_char (str_take 50 title)) in
  if bool_decide (kept = EmptyString) then "ieee_paper" else kept.

Definition docx_filename (paper : StructuredPaper) : string :=
  safe_title (title paper) +:+ ".docx".

(** The handler [export_docx], around the call modelled by [export_docx]
    above. *)
Definition export_docx_handler (paper : StructuredPaper) (g : Globals)
    : Response * Globals :=
  match export_docx paper (_session_images g) (_generator g) with
  | (inl docx_bytes, generator') =>
      (StreamingResponse docx_bytes
         "application/vnd.openxmlformats-officedocument.wordprocessingml.document"
         ("attachment; filename=" +:+ dquote +:+ docx_filename paper +:+ dquote),
       {| _session_images := _session_images g; _session_paper := _session_paper g;
          _generator := generator'; _processor := _processor g |})
  | (inr e, generator') =>
      (HTTPError 500 ("Failed to generate document: " +:+ str_exn e),
       {| _session_images := _session_images g; _session_paper := _session_paper g;
          _generator := generator'; _processor := _processor g |})
  end.

Definition clear_session (g : Globals) : Response * Globals :=
  (MessageResponse "Session cleared successfully",
   {| _session_images := []; _session_paper := None;
      _generator := _generator g; _processor := _processor g |}).

Definition health_check : Response :=
  MessageResponse "IEEE Paper Generator API is running".

(** ** Reading the answer of the model *)

(** A section of the answer as [Section(heading=..., content=...)] reads
    it, and whether its content is truthy. *)
Definition as_section (section_data : SectionData) : PaperSection :=
  {| heading := default "Untitled Section" (sd_heading section_data);
     content := default EmptyString (sd_content section_data) |}.

Definition has_content (section_data : SectionData) : Prop :=
  default EmptyString (sd_content section_data) <> EmptyString.

(** A figure of the answer as [Figure(index=..., caption=...,
    placement=...)] reads it, [sections] being the validated sections. *)
Definition as_figure (sections : list PaperSection) (fig_data : FigureData) : Figure :=
  {| index := default 0 (fd_index fig_data);
     caption := default ("Figure " +:+ str (default 0 (fd_index fig_data) + 1))
                  (fd_caption fig_data);
     placement := default (match sections with
                           | s :: _ => heading s
                           | [] => "Introduction"
                           end)
                    (fd_placement fig_data) |}.

(** A section written back as a JSON object. *)
Definition as_data (s : PaperSection) : SectionData :=
  {| sd_heading := Some (heading s); sd_content := Some (content s) |}.

(** Whether an upload passes the size check of [generate_paper]. *)
Definition small (img : UploadFile) : Prop :=
  len (file_data img) <= MAX_IMAGE_SIZE_MB * 1024 * 1024.

End Service.

#[global] Instance has_content_dec sd : Decision (has_content sd).
Proof. unfold has_content. apply _. Defined.

#[global] Instance small_dec img : Decision (small img).
Proof. unfold small. apply _. Defined.

(** ** Sample requests and a sample service

    A service that runs on ASCII text, whose model answers every prompt
    with an empty JSON object in a fenced block and whose parser knows
    that one text; uploads, answers and papers to run the handlers
    on. *)

Module Samples.
Import AsciiRuntime Examples.

Definition is_alnum (c : ascii) : bool :=
  let n := nat_of_ascii c in
  ((48 <=? n) && (n <=? 57) || (65 <=? n) && (n <=? 90)
   || (97 <=? n) && (n <=? 122))%nat.

Definition empty_answer : PaperData :=
  {| pd_title := None; pd_authors := None; pd_abstract := None;
     pd_keywords := None; pd_sections := None; pd_figures := None;
     pd_references := None |}.

Definition sample_response : string :=
  "Here is the paper:" +:+ nl +:+ "```json" +:+ nl +:+ "{}" +:+ nl +:+ "```".

Definition sample_services_with (key : option string) : Services :=
  {| isspace := is_space;
     isalnum := is_alnum;
     GEMINI_API_KEY := key;
     genai_init := None;
     generate_content := fun _ => inl sample_response;
     json_loads := fun text =>
       if bool_decide (text = "{}") then Parsed empty_answer
       else JSONDecodeError "Expecting value: line 1 column 1 (char 0)";
     str_HTTPException := fun status detail => str status +:+ ": " +:+ detail;
     str_exn := fun e =>
       match e with
       | IndexError => "list index out of range"
       | AttributeError => "'NoneType' object has no attribute 'add_paragraph'"
       | ImageError => "cannot identify image file"
       end |}.

#[export] Instance sample_services : Services := sample_services_with (Some "key").

Definition keyless_services : Services := sample_services_with None.

Definition upload (name : string) (data : bytes) : UploadFile :=
  {| filename := name; file_data := data |}.

(** An upload of 5 MB and one byte. *)
Definition oversize : UploadFile :=
  upload "big.png" (replicate (Z.to_nat (5 * 1024 * 1024 + 1)) Byte.x00).

Definition fresh : Globals :=
  {| _session_images := []; _session_paper := None;
     _generator := None; _processor := false |}.

Definition in_session (images : list bytes) : Globals :=
  {| _session_images := images; _session_paper := None;
     _generator := None; _processor := false |}.

(** An answer with one section that has content and one that has none,
    a figure that names no placement and one with an index below minus
    the number of uploads. *)
Definition fd_unplaced : FigureData :=
  {| fd_index := Some 0; fd_caption := None; fd_placement := None |}.
Definition fd_negative : FigureData :=
  {| fd_index := Some (-5); fd_caption := Some "c"; fd_placement := Some "methods" |}.

Definition methods_answer (figs : list FigureData) : PaperData :=
  {| pd_title := Some "On Methods"; pd_authors := None; pd_abstract := None;
     pd_keywords := None;
     pd_sections := Some [ {| sd_heading := Some "Methods";
                              sd_content := Some "We measure." |};
                           {| sd_heading := Some "Notes"; sd_content := None |} ];
     pd_figures := Some figs;
     pd_references := None |}.

Definition methods : PaperSection :=
  {| heading := "Methods"; content := "We measure." |}.

(** Papers with one figure of negative index: one that counts from the
    end of two images, one that falls before the first of one image. *)
Definition fig_last : Figure :=
  {| index := -1; caption := "last"; placement := "Introduction" |}.
Definition fig_before : Figure :=
  {| index := -3; caption := "c"; placement := "Introduction" |}.

Definition last_image : StructuredPaper := mk_paper [intro] [fig_last] [].
Definition before_first : StructuredPaper := mk_paper [intro] [fig_before] [].

End Samples.

(** * Verification *)

Section Runs.
Context {R : Runtime}.

(** ** Documents, binds and loops *)

Lemma extend_nil d : extend d [] = d.
Proof. destruct d; unfold extend; simpl. by rewrite app_nil_r. Qed.

Lemma extend_extend d ps qs : extend (extend d ps) qs = extend d (ps ++ qs).
Proof. unfold extend; simpl. by rewrite app_assoc. Qed.

Lemma bind_Return {A B} (m : M A) (k : A -> M B) self a self' :
  m self = Return a self' -> bind m k self = k a self'.
Proof. unfold bind. by intros ->. Qed.

Lemma bind_Raise {A B} (m : M A) (k : A -> M B) self e self' :
  m self = Raise e self' -> bind m k self = Raise e self'.
Proof. unfold bind. by intros ->. Qed.

(** Two loops over the same list agree when their bodies agree on its
    elements. *)
Lemma for_each_ext {A} (l : list A) (f g : A -> M unit) :
  (forall x self, x ∈ l -> f x self = g x self) ->
  forall self, for_each l f self = for_each l g self.
Proof.
  induction l as [|x l IH]; intros Hfg self; simpl; [done|].
  unfold bind. rewrite Hfg by left.
  destruct (g x self) as [[] s1|e s1]; [|done].
  apply IH. intros y s Hy. apply Hfg. by right.
Qed.

Lemma py_getitem_nonneg {A} (l : list A) (i : Z) :
  0 <= i -> py_getitem l i = l !! Z.to_nat i.
Proof. intros Hi. unfold py_getitem. by rewrite bool_decide_eq_true_2. Qed.

Lemma py_getitem_last {A} (l : list A) (x : A) :
  py_getitem (l ++ [x]) (-1) = Some x.
Proof.
  unfold py_getitem. rewrite bool_decide_eq_false_2 by lia.
  rewrite length_app; simpl.
  rewrite bool_decide_eq_true_2 by lia.
  replace (Z.to_nat (Z.of_nat (length l + 1) + -1)) with (length l + 0)%nat by lia.
  by rewrite lookup_app_r, Nat.add_0_r, Nat.sub_diag by lia.
Qed.

(** [l[i]] raises exactly when [i] is outside [-len(l) .. len(l)-1]. *)
Lemma py_getitem_is_Some {A} (l : list A) (i : Z) :
  is_Some (py_getitem l i) <-> - len l <= i < len l.
Proof.
  unfold py_getitem, len.
  case_bool_decide.
  - rewrite lookup_lt_is_Some. lia.
  - case_bool_decide.
    + rewrite lookup_lt_is_Some. lia.
    + split; [by intros [? ?]|lia].
Qed.

(** ** What each method appends *)

Lemma add_paragraph_run p d c t :
  add_paragraph p (st d c t) = Return tt (st (extend d [p]) c t).
Proof. reflexivity. Qed.

Lemma on_last_paragraph_run f p d c t :
  on_last_paragraph f (st (extend d [p]) c t) = Return tt (st (extend d [f p]) c t).
Proof.
  unfold on_last_paragraph, bind, get_doc; simpl.
  rewrite py_getitem_last. unfold on_doc, st, extend; simpl.
  by rewrite removelast_last.
Qed.

Lemma incr_figure_counter_run d c t :
  incr_figure_counter (st d c t) = Return tt (st d (c + 1) t).
Proof. reflexivity. Qed.

Lemma get_figure_counter_run d c t :
  get_figure_counter (st d c t) = Return c (st d c t).
Proof. reflexivity. Qed.

Lemma get_doc_run d c t : get_doc (st d c t) = Return d (st d c t).
Proof. reflexivity. Qed.

Lemma add_picture_run img w d c t :
  add_picture img w (st d c t)
  = if picture_ok img
    then Return tt (st (extend d [plain None [PictureRun img w]]) c t)
    else Raise ImageError (st d c t).
Proof.
  unfold add_picture. erewrite bind_Return by apply get_doc_run.
  by destruct (picture_ok img).
Qed.

Lemma _add_figure_run img cap d c t :
  _add_figure img cap (st d c t)
  = Return tt (st (extend d (rendered_figure (c + 1) img cap)) (c + 1) t).
Proof.
  unfold _add_figure, rendered_figure, image_paragraph.
  erewrite bind_Return by apply incr_figure_counter_run.
  assert (try_except
            (add_picture img (Inches 3000) ;; on_last_paragraph (set_alignment CENTER))
            (add_paragraph
               (set_alignment CENTER
                  (text_paragraph "[Image could not be processed]" None)))
            (st d (c + 1) t)
          = Return tt
              (st (extend d [if picture_ok img then picture_paragraph img
                             else placeholder_paragraph]) (c + 1) t)) as Himg.
  { unfold try_except, bind at 1. rewrite add_picture_run.
    destruct (picture_ok img).
    - by rewrite on_last_paragraph_run.
    - by rewrite add_paragraph_run. }
  erewrite bind_Return by apply Himg.
  erewrite bind_Return by apply get_figure_counter_run.
  by rewrite add_paragraph_run, extend_extend.
Qed.

Lemma _add_section_heading_run h n d c t :
  1 <= n ->
  _add_section_heading h n (st d c t)
  = Return tt (st (extend d [heading_paragraph (numeral n +:+ ". " +:+ upper h)]) c t).
Proof.
  intros Hn. unfold _add_section_heading, numeral.
  change (len roman_numerals) with 10.
  case_bool_decide as Hle.
  - rewrite py_getitem_nonneg by lia.
    destruct (roman_numerals !! Z.to_nat (n - 1)) as [r|] eqn:Hr.
    + reflexivity.
    + apply lookup_ge_None in Hr. simpl in Hr. lia.
  - reflexivity.
Qed.

Lemma _add_body_text_run content d c t :
  _add_body_text content (st d c t)
  = Return tt (st (extend d (body_paragraphs content)) c t).
Proof.
  unfold _add_body_text, body_paragraphs.
  generalize (split_blank_lines (strip content) EmptyString) as pieces.
  intros pieces. revert d.
  induction pieces as [|piece pieces IH]; intros d; simpl.
  - by rewrite extend_nil.
  - case_bool_decide.
    + erewrite bind_Return by apply add_paragraph_run.
      rewrite IH, extend_extend. done.
    + unfold bind, ret. apply IH.
Qed.

Lemma reference_entries_run refs : forall start d c t,
  for_each (enumerate start refs)
    (fun '(i, ref) => add_paragraph (reference_paragraph i ref)) (st d c t)
  = Return tt
      (st (extend d (imap (fun i ref => reference_paragraph (start + Z.of_nat i) ref) refs))
          c t).
Proof.
  induction refs as [|r refs IH]; intros start d c t; simpl.
  - by rewrite extend_nil.
  - erewrite bind_Return by apply add_paragraph_run.
    rewrite IH, extend_extend. do 3 f_equal. simpl. f_equal.
    + by rewrite Z.add_0_r.
    + apply imap_ext. intros i x _. simpl. f_equal. lia.
Qed.

Lemma _add_references_run refs d c t :
  _add_references refs (st d c t)
  = Return tt
      (st (extend d (heading_paragraph "REFERENCES"
                     :: imap (fun i ref => reference_paragraph (Z.of_nat i + 1) ref) refs))
          c t).
Proof.
  unfold _add_references.
  erewrite bind_Return by (apply _add_section_heading_run; lia).
  erewrite bind_Return by apply on_last_paragraph_run.
  rewrite reference_entries_run, extend_extend.
  do 3 f_equal. simpl. f_equal.
  apply imap_ext. intros i x _. simpl. f_equal. lia.
Qed.

(** ** The figure map *)

Lemma group_figures_lookup figs k :
  group_figures figs !! k
  = match filter (fun f => lower (placement f) = k) figs with
    | [] => None
    | l => Some l
    end.
Proof.
  induction figs as [|f figs IH] using rev_ind; [done|].
  unfold group_figures in *. rewrite foldl_app; simpl.
  set (m := foldl _ ∅ figs) in *.
  rewrite filter_app.
  destruct (decide (lower (placement f) = k)) as [Hk|Hk].
  - rewrite filter_cons_True, filter_nil by done. subst k.
    rewrite lookup_alter_eq.
    destruct (m !! lower (placement f)) as [l|] eqn:Hm.
    + rewrite Hm; simpl. destruct (filter _ figs); by simplify_eq.
    + rewrite lookup_insert_eq; simpl. by destruct (filter _ figs).
  - rewrite filter_cons_False, filter_nil, app_nil_r by done.
    rewrite lookup_alter_ne by done.
    destruct (m !! lower (placement f)); [done|].
    by rewrite lookup_insert_ne.
Qed.

(** ** Runs that may raise *)

Lemma runs_to_Return {A} (a : A) self : runs_to (Return a self) True a self.
Proof. split; [done|]. intros []. done. Qed.

Lemma runs_to_bind {A B} (m : M A) (k : A -> M B) self ok1 a s1 ok2 b s2 :
  runs_to (m self) ok1 a s1 ->
  (ok1 -> runs_to (k a s1) ok2 b s2) ->
  Decision ok1 ->
  runs_to (bind m k self) (ok1 /\ ok2) b s2.
Proof.
  intros [Hret Hraise] Hk Hdec. split.
  - intros [H1 H2]. rewrite (bind_Return _ _ _ _ _ (Hret H1)). by apply Hk.
  - intros Hn. destruct Hdec as [H1|H1].
    + rewrite (bind_Return _ _ _ _ _ (Hret H1)).
      apply (Hk H1). tauto.
    + destruct (Hraise H1) as [s Hs]. exists s. by apply bind_Raise.
Qed.

Lemma runs_to_iff {A} (o : outcome A) ok ok' a self' :
  runs_to o ok a self' -> (ok <-> ok') -> runs_to o ok' a self'.
Proof. intros [H1 H2] Hiff. split; intros H; [apply H1|apply H2]; tauto. Qed.

(** ** The loops of [generate] *)

Lemma figures_block_cons images c f fs :
  figures_block images c (f :: fs)
  = rendered_figure (c + 1) (image_of images f) (caption f)
    ++ figures_block images (c + 1) fs.
Proof.
  unfold figures_block. rewrite imap_cons; simpl.
  rewrite Z.add_0_r. do 3 f_equal.
  apply imap_ext. intros j x _; simpl. f_equal. lia.
Qed.

Lemma add_section_figures_run images l : forall d c t,
  runs_to (add_section_figures images l (st d c t))
    (Forall (fetchable images) (filter (in_range images) l)) tt
    (st (extend d (figures_block images c (filter (in_range images) l)))
        (c + len (filter (in_range images) l)) t).
Proof.
  unfold add_section_figures.
  induction l as [|f l IH]; intros d c t.
  - simpl. rewrite extend_nil, Z.add_0_r.
    eapply runs_to_iff; [apply runs_to_Return|]. by rewrite Forall_nil.
  - simpl. case_bool_decide as Hlt.
    + rewrite filter_cons_True by done.
      eapply runs_to_iff; [|symmetry; apply Forall_cons].
      apply runs_to_bind with (a := tt)
        (s1 := st (extend d (rendered_figure (c + 1) (image_of images f) (caption f)))
                  (c + 1) t); [| |apply _].
      * split.
        -- intros Hf. unfold image_of.
           destruct (py_getitem images (index f)) as [img|] eqn:Himg.
           ++ apply _add_figure_run.
           ++ assert (is_Some (py_getitem images (index f))) as [? ?]; [|congruence].
              apply py_getitem_is_Some. unfold fetchable, in_range in *. lia.
        -- intros Hf.
           destruct (py_getitem images (index f)) as [img|] eqn:Himg.
           ++ exfalso. apply Hf.
              assert (is_Some (py_getitem images (index f))) as Hs by eauto.
              apply py_getitem_is_Some in Hs. unfold fetchable. lia.
           ++ eexists. reflexivity.
      * intros _. rewrite figures_block_cons, <- extend_extend.
        replace (c + len (f :: filter (in_range images) l))
          with (c + 1 + len (filter (in_range images) l))
          by (unfold len; simpl; lia).
        apply IH.
    + rewrite filter_cons_False by done.
      unfold bind, ret. apply IH.
Qed.

Lemma section_blocks_cons figs images i c s ss :
  section_blocks figs images i c (s :: ss)
  = section_block figs images i c s
    :: section_blocks figs images (i + 1)
         (c + len (section_figures figs images s)) ss.
Proof.
  unfold section_blocks. rewrite imap_cons; simpl.
  rewrite !Z.add_0_r. f_equal.
  apply imap_ext. intros n x _; simpl. f_equal; [lia|].
  unfold len. rewrite length_app. lia.
Qed.

Lemma sections_loop_run figs images ss : forall i d c t,
  1 <= i ->
  runs_to
    (for_each (enumerate i ss) (fun '(i, section) =>
       add_section (group_figures figs) images i section) (st d c t))
    (Forall (fetchable images) (rendered figs images ss)) tt
    (st (extend d (concat (section_blocks figs images i c ss)))
        (c + len (rendered figs images ss)) t).
Proof.
  induction ss as [|s ss IH]; intros i d c t Hi.
  - simpl. rewrite extend_nil, Z.add_0_r.
    eapply runs_to_iff; [apply runs_to_Return|].
    unfold rendered; simpl. by rewrite Forall_nil.
  - cbn [enumerate for_each].
    eapply runs_to_iff; [|unfold rendered; simpl; symmetry; apply Forall_app].
    apply runs_to_bind with (a := tt)
      (s1 := st (extend d (section_block figs images i c s))
                (c + len (section_figures figs images s)) t); [| |apply _].
    + unfold add_section.
      erewrite bind_Return by (by apply _add_section_heading_run).
      erewrite bind_Return by apply _add_body_text_run.
      rewrite group_figures_lookup. unfold section_block, section_figures.
      destruct (filter _ figs) as [|f l] eqn:Hl.
      * rewrite filter_nil. unfold figures_block; simpl.
        rewrite app_nil_r, Z.add_0_r, extend_extend.
        eapply runs_to_iff; [apply runs_to_Return|]. by rewrite Forall_nil.
      * change (heading_paragraph (numeral i +:+ ". " +:+ upper (heading s))
                :: body_paragraphs (content s)
                ++ figures_block images c (filter (in_range images) (f :: l)))
          with (([heading_paragraph (numeral i +:+ ". " +:+ upper (heading s))]
                 ++ body_paragraphs (content s))
                ++ figures_block images c (filter (in_range images) (f :: l))).
        rewrite <- 2 extend_extend. apply add_section_figures_run.
    + intros _. rewrite section_blocks_cons. cbn [concat].
      rewrite <- extend_extend.
      replace (c + len (rendered figs images (s :: ss)))
        with (c + len (section_figures figs images s) + len (rendered figs images ss))
        by (unfold len, rendered; simpl; rewrite length_app; lia).
      apply IH. lia.
Qed.

Lemma swept_block_cons c x l :
  swept_block c (x :: l)
  = rendered_figure (c + 2) x.2 ("Figure " +:+ str (c + 1)) ++ swept_block (c + 2) l.
Proof.
  unfold swept_block. rewrite imap_cons; simpl.
  rewrite !Z.add_0_r. do 3 f_equal.
  apply imap_ext. intros j y _; simpl.
  replace (c + 2 * Z.of_nat (S j) + 2) with (c + 2 + 2 * Z.of_nat j + 2) by lia.
  replace (c + 2 * Z.of_nat (S j) + 1) with (c + 2 + 2 * Z.of_nat j + 1) by lia.
  done.
Qed.

Lemma sweep_loop_run (placed : gset Z) images : forall start d c t,
  for_each (enumerate start images) (fun '(i, img_data) =>
    add_remaining_image placed i img_data) (st d c t)
  = Return tt
      (st (extend d (swept_block c (filter (fun x => x.1 ∉ placed) (enumerate start images))))
          (c + 2 * len (filter (fun x => x.1 ∉ placed) (enumerate start images))) t).
Proof.
  induction images as [|img images IH]; intros start d c t; simpl.
  - by rewrite extend_nil, Z.add_0_r.
  - unfold add_remaining_image at 1. case_bool_decide as Hin.
    + rewrite filter_cons_True by done.
      erewrite bind_Return; cycle 1.
      { erewrite bind_Return by apply incr_figure_counter_run.
        erewrite bind_Return by apply get_figure_counter_run.
        apply _add_figure_run. }
      rewrite IH, swept_block_cons, extend_extend; simpl.
      replace (c + 1 + 1) with (c + 2) by lia.
      do 2 f_equal. unfold len; simpl. lia.
    + rewrite filter_cons_False by (simpl; tauto).
      unfold bind, ret. apply IH.
Qed.

Lemma add_front_matter_run paper self :
  add_front_matter paper self = Return tt (st (front_document paper) 0 0).
Proof. reflexivity. Qed.

(** [generate] returns the serialised [layout] unless a rendered figure
    has an index below [-len(images)], in which case it raises. *)
Lemma generate_run paper images self :
  runs_to (generate paper images self)
    (Forall (fetchable (or_empty images))
       (rendered (figures paper) (or_empty images) (sections paper)))
    (save (layout paper (or_empty images)))
    (st (layout paper (or_empty images)) (final_counter paper (or_empty images)) 0).
Proof.
  unfold generate.
  erewrite bind_Return by apply add_front_matter_run.
  eapply runs_to_iff; [|apply (right_id True and)].
  apply runs_to_bind with (a := tt)
    (s1 := st (extend (front_document paper)
                 (concat (section_blocks (figures paper) (or_empty images) 1 0
                            (sections paper))))
              (0 + len (rendered (figures paper) (or_empty images) (sections paper))) 0);
    [| |apply _].
  - unfold add_sections. by apply sections_loop_run.
  - intros _. unfold add_remaining_images.
    erewrite bind_Return by apply sweep_loop_run.
    rewrite extend_extend.
    fold (unreferenced (figures paper) (or_empty images)).
    rewrite Z.add_0_l.
    fold (final_counter paper (or_empty images)).
    unfold layout, references_block.
    case_bool_decide.
    + erewrite bind_Return by apply _add_references_run.
      erewrite bind_Return by apply get_doc_run.
      rewrite extend_extend, <- app_assoc. apply runs_to_Return.
    + unfold bind at 1, ret at 1.
      erewrite bind_Return by apply get_doc_run.
      rewrite app_nil_r. apply runs_to_Return.
Qed.

(** ** Returning and raising *)

(** A returned [generate] is the serialised [layout]. *)
Lemma generate_Return paper images self out self' :
  generate paper images self = Return out self' ->
  Forall (fetchable (or_empty images))
    (rendered (figures paper) (or_empty images) (sections paper))
  /\ out = save (layout paper (or_empty images))
  /\ self' = st (layout paper (or_empty images))
                (final_counter paper (or_empty images)) 0.
Proof.
  intros Hgen. destruct (generate_run paper images self) as [Hok Hraise].
  destruct (decide (Forall (fetchable (or_empty images))
              (rendered (figures paper) (or_empty images) (sections paper))))
    as [Hf|Hf].
  - rewrite (Hok Hf) in Hgen. by simplify_eq.
  - destruct (Hraise Hf) as [s Hs]. congruence.
Qed.

Lemma rendered_subseteq figs images ss f :
  f ∈ rendered figs images ss -> f ∈ figs /\ in_range images f.
Proof.
  unfold rendered. rewrite list_elem_of_In, in_flat_map.
  intros (s & _ & Hf). apply list_elem_of_In in Hf.
  unfold section_figures in Hf.
  rewrite !list_elem_of_filter in Hf. tauto.
Qed.

(** [generate] returns when no figure has an index below [-len(images)]. *)
Lemma generate_returns paper images self :
  (forall f, f ∈ figures paper -> - len (or_empty images) <= index f) ->
  generate paper images self
  = Return (save (layout paper (or_empty images)))
      (st (layout paper (or_empty images)) (final_counter paper (or_empty images)) 0).
Proof.
  intros Hidx. apply generate_run.
  apply Forall_forall. intros f Hf.
  apply rendered_subseteq in Hf as [Hf _]. by apply Hidx.
Qed.



Lemma bind_ext {A B} (m m' : M A) (k k' : A -> M B) self :
  m self = m' self ->
  (forall a s, k a s = k' a s) ->
  bind m k self = bind m' k' self.
Proof. intros Hm Hk. unfold bind. rewrite Hm. destruct (m' self); [apply Hk|done]. Qed.

Lemma add_section_figures_filter images l : forall self,
  add_section_figures images l self
  = add_section_figures images (filter (in_range images) l) self.
Proof.
  unfold add_section_figures.
  induction l as [|f l IH]; intros self; [done|].
  destruct (decide (in_range images f)) as [Hin|Hin].
  - rewrite filter_cons_True by done. simpl.
    apply bind_ext; [done|]. intros _ s. apply IH.
  - rewrite filter_cons_False by done. simpl.
    rewrite bool_decide_eq_false_2 by done.
    unfold bind at 1, ret at 1. apply IH.
Qed.

Lemma filter_filter_comm {A} (P Q : A -> Prop)
    `{!forall x, Decision (P x), !forall x, Decision (Q x)} (l : list A) :
  filter P (filter Q l) = filter Q (filter P l).
Proof. rewrite !list_filter_filter. apply list_filter_iff. tauto. Qed.

Lemma add_section_filter figs images i s self :
  add_section (group_figures figs) images i s self
  = add_section (group_figures (filter (in_range images) figs)) images i s self.
Proof.
  unfold add_section.
  apply bind_ext; [done|]. intros _ s1.
  apply bind_ext; [done|]. intros _ s2.
  rewrite !group_figures_lookup.
  rewrite (filter_filter_comm _ (in_range images)).
  destruct (filter (fun f => lower (placement f) = lower (heading s)) figs)
    as [|f l] eqn:HL; [done|].
  rewrite add_section_figures_filter.
  by destruct (filter (in_range images) (f :: l)).
Qed.

Lemma elem_of_enumerate {A} (l : list A) : forall start i x,
  (i, x) ∈ enumerate start l <->
  start <= i /\ l !! Z.to_nat (i - start) = Some x.
Proof.
  induction l as [|y l IH]; intros start i x; simpl.
  - rewrite elem_of_nil. split; [done|]. by intros [_ ?].
  - rewrite elem_of_cons, IH. split.
    + intros [[= -> ->]|[Hle Hl]].
      * split; [lia|]. by rewrite Z.sub_diag.
      * split; [lia|].
        replace (Z.to_nat (i - start)) with (S (Z.to_nat (i - (start + 1)))) by lia.
        done.
    + intros [Hle Hl].
      destruct (decide (i = start)) as [->|Hne].
      * left. rewrite Z.sub_diag in Hl. simpl in Hl. by simplify_eq.
      * right. split; [lia|].
        replace (Z.to_nat (i - start)) with (S (Z.to_nat (i - (start + 1)))) in Hl by lia.
        done.
Qed.

Lemma elem_of_placed_indices figs i :
  i ∈ placed_indices figs <-> exists f, f ∈ figs /\ index f = i.
Proof.
  unfold placed_indices. rewrite elem_of_list_to_set, list_elem_of_fmap.
  split; intros (f & ? & ?); by exists f.
Qed.

Lemma add_remaining_images_filter paper images self :
  add_remaining_images paper images self
  = add_remaining_images
      (with_figures paper (filter (in_range images) (figures paper))) images self.
Proof.
  unfold add_remaining_images. apply for_each_ext.
  intros [i img] s Hi. apply elem_of_enumerate in Hi as [Hle Hl].
  apply lookup_lt_Some in Hl.
  unfold add_remaining_image.
  assert (i ∈ placed_indices (figures paper)
          <-> i ∈ placed_indices (figures (with_figures paper
                   (filter (in_range images) (figures paper))))) as Hiff.
  { simpl. rewrite !elem_of_placed_indices. split.
    - intros (f & Hf & <-). exists f. split; [|done].
      apply list_elem_of_filter. split; [|done]. unfold in_range, len. lia.
    - intros (f & Hf & <-). exists f. split; [|done].
      by apply list_elem_of_filter in Hf as [_ ?]. }
  destruct (decide (i ∈ placed_indices (figures paper))) as [Hin|Hin].
  - rewrite !bool_decide_eq_false_2; [done| |]; tauto.
  - rewrite !bool_decide_eq_true_2; [done| |]; tauto.
Qed.


(** ** Properties shared by the paragraphs after the front matter *)

Section Paragraphs.
Variable P : Paragraph -> Prop.
Hypothesis P_heading : forall txt, P (heading_paragraph txt).
Hypothesis P_text : forall txt, P (text_paragraph txt (Some "IEEE Body")).
Hypothesis P_image : forall img, P (image_paragraph img).
Hypothesis P_caption : forall n cap, P (caption_paragraph n cap).
Hypothesis P_reference : forall i ref, P (reference_paragraph i ref).

Lemma body_paragraphs_Forall content : Forall P (body_paragraphs content).
Proof.
  unfold body_paragraphs.
  induction (split_blank_lines (strip content) EmptyString) as [|piece pieces IH]; simpl.
  - constructor.
  - apply Forall_app. split; [|done].
    case_bool_decide; repeat constructor. apply P_text.
Qed.

Lemma figures_block_Forall images fs : forall c, Forall P (figures_block images c fs).
Proof.
  induction fs as [|f fs IH]; intros c.
  - constructor.
  - rewrite figures_block_cons. apply Forall_app. split; [|apply IH].
    repeat constructor; [apply P_image|apply P_caption].
Qed.

Lemma swept_block_Forall l : forall c, Forall P (swept_block c l).
Proof.
  induction l as [|x l IH]; intros c.
  - constructor.
  - rewrite swept_block_cons. apply Forall_app. split; [|apply IH].
    repeat constructor; [apply P_image|apply P_caption].
Qed.

Lemma references_block_Forall refs : Forall P (references_block refs).
Proof.
  unfold references_block. case_bool_decide; [|constructor].
  constructor; [apply P_heading|].
  apply Forall_lookup. intros i p. rewrite list_lookup_imap.
  destruct (refs !! i); simpl; [|done]. intros [= <-]. apply P_reference.
Qed.

Lemma section_blocks_Forall figs images ss : forall i c,
  Forall P (concat (section_blocks figs images i c ss)).
Proof.
  induction ss as [|s ss IH]; intros i c.
  - constructor.
  - rewrite section_blocks_cons. cbn [concat].
    apply Forall_app. split; [|apply IH].
    unfold section_block. constructor; [apply P_heading|].
    apply Forall_app. split;
      [apply body_paragraphs_Forall|apply figures_block_Forall].
Qed.

End Paragraphs.

Lemma filter_Forall_not {A} (Q : A -> Prop) `{!forall x, Decision (Q x)} (l : list A) :
  Forall (fun x => ~ Q x) l -> filter Q l = [].
Proof.
  induction 1 as [|x l Hx _ IH]; [done|]. by rewrite filter_cons_False.
Qed.

Lemma numeral_position (n : nat) :
  numeral (Z.of_nat (S n)) = position_numeral (S n).
Proof.
  do 10 (destruct n as [|n]; [reflexivity|]).
  unfold numeral, position_numeral.
  rewrite bool_decide_eq_false_2 by lia. reflexivity.
Qed.

Lemma section_blocks_headings figs images ss : forall i c,
  filter is_heading (concat (section_blocks figs images i c ss))
  = imap (fun n s => heading_paragraph
                       (numeral (i + Z.of_nat n) +:+ ". " +:+ upper (heading s))) ss.
Proof.
  induction ss as [|s ss IH]; intros i c; [done|].
  rewrite section_blocks_cons. cbn [concat].
  rewrite filter_app, IH. unfold section_block.
  rewrite filter_cons_True by done.
  rewrite filter_app.
  rewrite (filter_Forall_not _ (body_paragraphs _)), (filter_Forall_not _ (figures_block _ _ _)).
  - rewrite imap_cons, Z.add_0_r. simpl. f_equal.
    apply imap_ext. intros n x _. simpl. do 3 f_equal. lia.
  - apply figures_block_Forall; try done.
    intros img. unfold image_paragraph. by destruct (picture_ok img).
  - by apply body_paragraphs_Forall.
Qed.




(** ** Where the rendered figures are *)

Lemma figures_block_length images fs : forall c,
  length (figures_block images c fs) = (2 * length fs)%nat.
Proof.
  induction fs as [|f fs IH]; intros c; [done|].
  rewrite figures_block_cons, length_app, IH. simpl. lia.
Qed.

Lemma figures_block_lookup images fs : forall c (j : nat) f,
  fs !! j = Some f ->
  figures_block images c fs !! (2 * j)%nat = Some (image_paragraph (image_of images f))
  /\ figures_block images c fs !! (2 * j + 1)%nat
     = Some (caption_paragraph (c + Z.of_nat j + 1) (caption f)).
Proof.
  induction fs as [|g fs IH]; intros c j f Hj; [done|].
  rewrite figures_block_cons. destruct j as [|j]; simpl in Hj.
  - simplify_eq. simpl. by rewrite Z.add_0_r.
  - destruct (IH (c + 1) j f Hj) as [H1 H2].
    replace (2 * S j)%nat with (S (S (2 * j))) by lia.
    replace (S (S (2 * j)) + 1)%nat with (S (S (2 * j + 1))) by lia.
    simpl. split; [exact H1|].
    etrans; [exact H2|]. do 2 f_equal. lia.
Qed.

Lemma swept_block_length l : forall c,
  length (swept_block c l) = (2 * length l)%nat.
Proof.
  induction l as [|x l IH]; intros c; [done|].
  rewrite swept_block_cons, length_app, IH. simpl. lia.
Qed.

Lemma swept_block_lookup l : forall c (j : nat) x,
  l !! j = Some x ->
  swept_block c l !! (2 * j)%nat = Some (image_paragraph x.2)
  /\ swept_block c l !! (2 * j + 1)%nat
     = Some (caption_paragraph (c + 2 * Z.of_nat j + 2)
               ("Figure " +:+ str (c + 2 * Z.of_nat j + 1))).
Proof.
  induction l as [|y l IH]; intros c j x Hj; [done|].
  rewrite swept_block_cons. destruct j as [|j]; simpl in Hj.
  - simplify_eq. simpl. by rewrite !Z.add_0_r.
  - destruct (IH (c + 2) j x Hj) as [H1 H2].
    replace (2 * S j)%nat with (S (S (2 * j))) by lia.
    replace (S (S (2 * j)) + 1)%nat with (S (S (2 * j + 1))) by lia.
    simpl. split; [exact H1|].
    etrans; [exact H2|].
    replace (c + 2 + 2 * Z.of_nat j + 2) with (c + 2 * Z.of_nat (S j) + 2) by lia.
    replace (c + 2 + 2 * Z.of_nat j + 1) with (c + 2 * Z.of_nat (S j) + 1) by lia.
    done.
Qed.

(** Filtering [enumerate] keeps the positions in ascending order. *)
Lemma filter_enumerate_ascending {A} (Q : Z * A -> Prop)
    `{!forall x, Decision (Q x)} (l : list A) : forall start,
  (forall x, x ∈ filter Q (enumerate start l) -> start <= x.1)
  /\ (forall (j1 j2 : nat) x1 x2,
        (j1 < j2)%nat ->
        filter Q (enumerate start l) !! j1 = Some x1 ->
        filter Q (enumerate start l) !! j2 = Some x2 ->
        x1.1 < x2.1).
Proof.
  induction l as [|a l IH]; intros start; simpl.
  - split; [by intros x ?%elem_of_nil|done].
  - destruct (IH (start + 1)) as [IHlo IHasc].
    rewrite filter_cons. destruct (decide (Q (start, a))) as [Hq|Hq].
    + split.
      * intros x [->|Hx]%elem_of_cons; [done|].
        specialize (IHlo x Hx). lia.
      * intros j1 j2 x1 x2 Hlt H1 H2.
        destruct j2 as [|j2]; [lia|]. simpl in H2.
        destruct j1 as [|j1]; simpl in H1.
        -- simplify_eq. simpl.
           apply list_elem_of_lookup_2 in H2. specialize (IHlo x2 H2). lia.
        -- apply (IHasc j1 j2); [lia|done..].
    + split; [|exact IHasc].
      intros x Hx. specialize (IHlo x Hx). lia.
Qed.


(** ** Figures placed in no section, or in several *)

(** C9: a figure whose lower-cased placement is the lower-cased heading
    of no section is rendered after no section: the loop over the
    sections runs exactly as on the paper without that figure. Its index
    is nevertheless in the set of placed indices, so the sweep does
    nothing at the image position equal to that index. *)
Theorem C9_unmatched_placement_rendered_nowhere paper images f :
  f ∈ figures paper ->
  (forall s, s ∈ sections paper -> lower (placement f) <> lower (heading s)) ->
  (forall self,
     add_sections paper images self
     = add_sections
         (with_figures paper (filter (fun g => g <> f) (figures paper)))
         images self)
  /\ index f ∈ placed_indices (figures paper)
  /\ (forall img self,
        add_remaining_image (placed_indices (figures paper)) (index f) img self
        = Return tt self).
Proof.
  intros Hf Hno. split; [|split].
  - intros self. unfold add_sections. apply for_each_ext.
    intros [i s] self0 Hs. apply elem_of_enumerate in Hs as [_ Hs].
    apply list_elem_of_lookup_2 in Hs.
    unfold add_section.
    apply bind_ext; [done|]. intros _ s1.
    apply bind_ext; [done|]. intros _ s2.
    rewrite !group_figures_lookup. cbn [figures with_figures].
    rewrite list_filter_filter_l; [done|].
    intros g Hg ->. by apply (Hno s).
  - apply elem_of_placed_indices. by exists f.
  - intros img self. unfold add_remaining_image.
    rewrite bool_decide_eq_false_2; [done|].
    intros Hnot. apply Hnot, elem_of_placed_indices. by exists f.
Qed.

Lemma rendered_app figs images ss1 ss2 :
  rendered figs images (ss1 ++ ss2)
  = rendered figs images ss1 ++ rendered figs images ss2.
Proof. unfold rendered. apply List.flat_map_app. Qed.

(** The figures rendered before section [n2] include those rendered
    before and after an earlier section [n1]. *)
Lemma rendered_take_lt figs images ss (n1 n2 : nat) s1 :
  (n1 < n2)%nat ->
  ss !! n1 = Some s1 ->
  len (rendered figs images (take n1 ss)) + len (section_figures figs images s1)
  <= len (rendered figs images (take n2 ss)).
Proof.
  intros Hlt Hs1.
  assert (take n2 ss !! n1 = Some s1) as Ht by (by rewrite lookup_take_lt).
  apply take_drop_middle in Ht. rewrite take_take in Ht.
  replace (n1 `min` n2)%nat with n1 in Ht by lia.
  rewrite <- Ht.
  rewrite rendered_app. unfold rendered at 3. simpl.
  unfold len. rewrite !length_app. lia.
Qed.


End Runs.

(** * Further properties of the generator *)

Section MoreRuns.
Context {R : Runtime}.

(** ** Caption numbers *)

Lemma image_paragraph_not_caption img : ~ is_caption (image_paragraph img).
Proof. unfold image_paragraph. by destruct (picture_ok img). Qed.

Lemma figures_block_captions images fs : forall c,
  filter is_caption (figures_block images c fs)
  = imap (fun j f => caption_paragraph (c + Z.of_nat j + 1) (caption f)) fs.
Proof.
  induction fs as [|f fs IH]; intros c; [done|].
  rewrite figures_block_cons. unfold rendered_figure. cbn [app].
  rewrite filter_cons_False by apply image_paragraph_not_caption.
  rewrite filter_cons_True by done.
  rewrite IH, imap_cons, Z.add_0_r. f_equal.
  apply imap_ext. intros j x _. simpl. f_equal. lia.
Qed.

Lemma swept_block_captions l : forall c,
  filter is_caption (swept_block c l)
  = imap (fun j (x : Z * bytes) =>
            caption_paragraph (c + 2 * Z.of_nat j + 2)
              ("Figure " +:+ str (c + 2 * Z.of_nat j + 1))) l.
Proof.
  induction l as [|x l IH]; intros c; [done|].
  rewrite swept_block_cons. unfold rendered_figure. cbn [app].
  rewrite filter_cons_False by apply image_paragraph_not_caption.
  rewrite filter_cons_True by done.
  rewrite IH, imap_cons, !Z.add_0_r. f_equal.
  apply imap_ext. intros j y _. simpl.
  replace (c + 2 + 2 * Z.of_nat j + 2) with (c + 2 * Z.of_nat (S j) + 2) by lia.
  replace (c + 2 + 2 * Z.of_nat j + 1) with (c + 2 * Z.of_nat (S j) + 1) by lia.
  done.
Qed.

Lemma section_blocks_captions figs images ss : forall i c,
  filter is_caption (concat (section_blocks figs images i c ss))
  = imap (fun j f => caption_paragraph (c + Z.of_nat j + 1) (caption f))
      (rendered figs images ss).
Proof.
  induction ss as [|s ss IH]; intros i c; [done|].
  rewrite section_blocks_cons. cbn [concat].
  rewrite filter_app, IH. unfold section_block.
  rewrite filter_cons_False by done.
  rewrite filter_app, figures_block_captions.
  rewrite (filter_Forall_not _ (body_paragraphs _))
    by (by apply body_paragraphs_Forall).
  unfold rendered at 2. cbn [flat_map]. fold (rendered figs images ss).
  rewrite imap_app. cbn [app]. f_equal.
  apply imap_ext. intros j x _. simpl. f_equal. unfold len. lia.
Qed.


(** ** Headings *)


(** ** Styles *)

Ltac in_list :=
  repeat (first [apply list_elem_of_here | apply list_elem_of_further]).

Lemma register_styles_run l : forall d c t,
  for_each l (fun st0 => on_doc (add_style_if_absent st0)) (st d c t)
  = Return tt (st (register_styles l d) c t).
Proof.
  induction l as [|s l IH]; intros d c t; [done|].
  cbn [for_each register_styles foldl].
  erewrite bind_Return by reflexivity. apply IH.
Qed.

Lemma add_style_if_absent_spec s d :
  body (add_style_if_absent s d) = body d
  /\ last_sectPr (add_style_if_absent s d) = last_sectPr d
  /\ style_name s ∈ style_names (add_style_if_absent s d)
  /\ (style_name s ∈ style_names d -> add_style_if_absent s d = d)
  /\ exists added,
       styles (add_style_if_absent s d) = styles d ++ added
       /\ Forall (fun a => a = s /\ style_name a ∉ style_names d) added.
Proof.
  unfold add_style_if_absent, style_names. case_bool_decide as Hin.
  - repeat split; try done. exists []. by rewrite app_nil_r.
  - simpl. repeat split; try done.
    + rewrite fmap_app. apply elem_of_app. right. apply list_elem_of_here.
    + exists [s]. split; [done|]. by repeat constructor.
Qed.

Lemma register_styles_spec l : forall d,
  body (register_styles l d) = body d
  /\ last_sectPr (register_styles l d) = last_sectPr d
  /\ (forall s, s ∈ l -> style_name s ∈ style_names (register_styles l d))
  /\ exists added,
       styles (register_styles l d) = styles d ++ added
       /\ Forall (fun a => a ∈ l /\ style_name a ∉ style_names d) added.
Proof.
  induction l as [|s l IH]; intros d.
  - repeat split; try done.
    + by intros s ?%elem_of_nil.
    + exists []. by rewrite app_nil_r.
  - cbn [register_styles foldl]. fold (register_styles l (add_style_if_absent s d)).
    destruct (add_style_if_absent_spec s d)
      as (Hb & Hs & Hname & _ & added1 & Hst1 & Hadd1).
    destruct (IH (add_style_if_absent s d))
      as (Hb2 & Hs2 & Hnames2 & added2 & Hst2 & Hadd2).
    split; [congruence|]. split; [congruence|]. split.
    + intros s0 [->|Hin]%elem_of_cons; [|by apply Hnames2].
      unfold style_names in *. rewrite Hst2, fmap_app.
      apply elem_of_app. by left.
    + exists (added1 ++ added2). split; [by rewrite Hst2, Hst1, app_assoc|].
      apply Forall_app. split.
      * eapply Forall_impl; [exact Hadd1|]. intros a [-> Ha]. split; [left|done].
      * eapply Forall_impl; [exact Hadd2|]. intros a [Ha Hn]. split; [by right|].
        intros Hin. apply Hn. unfold style_names in *.
        rewrite Hst1, fmap_app. apply elem_of_app. by left.
Qed.

Lemma register_styles_id l : forall d,
  (forall s, s ∈ l -> style_name s ∈ style_names d) ->
  register_styles l d = d.
Proof.
  induction l as [|s l IH]; intros d Hall; [done|].
  cbn [register_styles foldl]. fold (register_styles l (add_style_if_absent s d)).
  destruct (add_style_if_absent_spec s d) as (_ & _ & _ & Hid & _).
  rewrite Hid by (apply Hall; left).
  apply IH. intros s0 Hs0. apply Hall. by right.
Qed.

Lemma register_styles_twice l d c t :
  exists d' added,
    for_each l (fun st0 => on_doc (add_style_if_absent st0)) (st d c t)
    = Return tt (st d' c t)
    /\ for_each l (fun st0 => on_doc (add_style_if_absent st0)) (st d' c t)
       = Return tt (st d' c t)
    /\ body d' = body d
    /\ last_sectPr d' = last_sectPr d
    /\ styles d' = styles d ++ added
    /\ Forall (fun a => a ∈ l /\ style_name a ∉ style_name <$> styles d) added
    /\ forall s, s ∈ l -> style_name s ∈ style_name <$> styles d'.
Proof.
  destruct (register_styles_spec l d) as (Hb & Hs & Hnames & added & Hst & Hadd).
  exists (register_styles l d), added.
  rewrite !register_styles_run, (register_styles_id l _ Hnames).
  done.
Qed.

Lemma ieee_style_names (names : list string) :
  (forall s, s ∈ ieee_styles -> style_name s ∈ names) ->
  forall name,
    name ∈ ["IEEE Title"; "IEEE Author"; "IEEE Abstract Label"; "IEEE Abstract";
            "IEEE Heading"; "IEEE Body"; "IEEE Caption"; "IEEE Keywords"] ->
    name ∈ names.
Proof.
  intros Hnames name Hname.
  change ["IEEE Title"; "IEEE Author"; "IEEE Abstract Label"; "IEEE Abstract";
          "IEEE Heading"; "IEEE Body"; "IEEE Caption"; "IEEE Keywords"]
    with (style_name <$> ieee_styles) in Hname.
  apply list_elem_of_fmap in Hname as (s & -> & Hs). exact (Hnames s Hs).
Qed.

(** X3: [_create_styles] only ever appends: on any document it keeps
    the body, the section properties and every style already registered,
    adds the IEEE styles whose names are not yet taken (never a second
    style under a name in use), and leaves all eight names registered;
    running it again changes nothing. *)
Theorem X3_create_styles_idempotent d c t :
  exists d' added,
    _create_styles (st d c t) = Return tt (st d' c t)
    /\ _create_styles (st d' c t) = Return tt (st d' c t)
    /\ body d' = body d
    /\ last_sectPr d' = last_sectPr d
    /\ styles d' = styles d ++ added
    /\ Forall (fun a => a ∈ ieee_styles /\ style_name a ∉ style_name <$> styles d)
         added
    /\ forall name,
         name ∈ ["IEEE Title"; "IEEE Author"; "IEEE Abstract Label";
                 "IEEE Abstract"; "IEEE Heading"; "IEEE Body"; "IEEE Caption";
                 "IEEE Keywords"] ->
         name ∈ style_name <$> styles d'.
Proof.
  destruct (register_styles_twice ieee_styles d c t)
    as (d' & added & Hrun1 & Hrun2 & Hb & Hs & Hst & Hadd & Hnames).
  exists d', added.
  split; [exact Hrun1|]. split; [exact Hrun2|]. split; [exact Hb|].
  split; [exact Hs|]. split; [exact Hst|]. split; [exact Hadd|].
  exact (ieee_style_names _ Hnames).
Qed.


(** ** Exceptions *)


(** ** Negative indices *)

Lemma figures_block_app images l1 l2 : forall c,
  figures_block images c (l1 ++ l2)
  = figures_block images c l1 ++ figures_block images (c + len l1) l2.
Proof.
  induction l1 as [|f l1 IH]; intros c.
  - simpl. by rewrite Z.add_0_r.
  - rewrite <- app_comm_cons, !figures_block_cons, IH, <- app_assoc.
    do 3 f_equal. unfold len. simpl. lia.
Qed.

Lemma concat_lookup_split {A} (ls : list (list A)) (n : nat) l :
  ls !! n = Some l ->
  exists before after, concat ls = before ++ l ++ after.
Proof.
  intros Hn. apply take_drop_middle in Hn. rewrite <- Hn.
  exists (concat (take n ls)), (concat (drop (S n) ls)).
  by rewrite concat_app.
Qed.

(** A figure that passes the index check is in the document after each
    section it is placed in, with the image [images[f.index]]. *)
Lemma rendered_figure_in_layout paper images f s :
  s ∈ sections paper ->
  f ∈ section_figures (figures paper) images s ->
  exists before after k,
    body (layout paper images)
    = before ++ rendered_figure k (image_of images f) (caption f) ++ after.
Proof.
  intros Hs Hf.
  apply list_elem_of_lookup_1 in Hs as [n Hn].
  apply list_elem_of_split in Hf as (l1 & l2 & Hsplit).
  assert (section_blocks (figures paper) images 1 0 (sections paper) !! n
          = Some (section_block (figures paper) images (1 + Z.of_nat n)
                    (0 + len (rendered (figures paper) images (take n (sections paper))))
                    s)) as Hblk.
  { unfold section_blocks. by rewrite list_lookup_imap, Hn. }
  apply concat_lookup_split in Hblk as (pre & post & Hcat).
  unfold layout, extend, front_document; cbn [body]. rewrite Hcat.
  unfold section_block. rewrite Hsplit, figures_block_app, figures_block_cons.
  set (c := 0 + len (rendered (figures paper) images (take n (sections paper)))).
  exists (front_paragraphs paper ++ pre
          ++ heading_paragraph (numeral (1 + Z.of_nat n) +:+ ". " +:+ upper (heading s))
             :: body_paragraphs (content s) ++ figures_block images c l1),
         (figures_block images (c + len l1 + 1) l2 ++ post
          ++ swept_block (len (rendered (figures paper) images (sections paper)))
               (unreferenced (figures paper) images)
          ++ references_block (references paper)),
         (c + len l1 + 1).
  generalize (rendered_figure (c + len l1 + 1) (image_of images f) (caption f)).
  intros fig. rewrite <- !app_assoc. cbn [app]. rewrite <- !app_assoc. reflexivity.
Qed.

Lemma add_remaining_images_in_bounds paper images self :
  add_remaining_images paper images self
  = add_remaining_images
      (with_figures paper
         (filter (fun f => 0 <= index f < len images) (figures paper)))
      images self.
Proof.
  unfold add_remaining_images. apply for_each_ext.
  intros [i img] s Hi. apply elem_of_enumerate in Hi as [Hle Hl].
  apply lookup_lt_Some in Hl.
  unfold add_remaining_image.
  assert (i ∈ placed_indices (figures paper)
          <-> i ∈ placed_indices (figures (with_figures paper
                   (filter (fun f => 0 <= index f < len images) (figures paper)))))
    as Hiff.
  { simpl. rewrite !elem_of_placed_indices. split.
    - intros (f & Hf & <-). exists f. split; [|done].
      apply list_elem_of_filter. split; [|done]. unfold len. lia.
    - intros (f & Hf & <-). exists f. split; [|done].
      by apply list_elem_of_filter in Hf as [_ ?]. }
  destruct (decide (i ∈ placed_indices (figures paper))) as [Hin|Hin].
  - rewrite !bool_decide_eq_false_2; [done| |]; tauto.
  - rewrite !bool_decide_eq_true_2; [done| |]; tauto.
Qed.

(** X6: a negative index counts from the end of the image list. A
    figure placed in an existing section with an index [-k],
    [1 <= k <= len(images)], is rendered with the image at position
    [len(images) - k]; and the sweep takes no account of it: only the
    figures whose index is a position of the image list, from 0 to
    [len(images) - 1], keep an image out of the sweep. *)
Theorem X6_negative_index_counts_from_end paper images f s self :
  f ∈ figures paper ->
  s ∈ sections paper ->
  lower (placement f) = lower (heading s) ->
  - len (or_empty images) <= index f < 0 ->
  (forall out self',
     generate paper images self = Return out self' ->
     exists d img before after k,
       doc self' = Some d /\ out = save d /\
       or_empty images !! Z.to_nat (len (or_empty images) + index f) = Some img /\
       body d = before ++ [image_paragraph img; caption_paragraph k (caption f)]
                ++ after)
  /\ forall self0,
       add_remaining_images paper (or_empty images) self0
       = add_remaining_images
           (with_figures paper
              (filter (fun g => 0 <= index g < len (or_empty images))
                 (figures paper)))
           (or_empty images) self0.
Proof.
  intros Hf Hs Hm Hidx. split; [|intros; apply add_remaining_images_in_bounds].
  intros out self' Hgen. apply generate_Return in Hgen as (_ & -> & ->).
  set (imgs := or_empty images) in *.
  assert (f ∈ section_figures (figures paper) imgs s) as Hfs.
  { unfold section_figures. rewrite !list_elem_of_filter.
    split; [unfold in_range; lia|done]. }
  destruct (rendered_figure_in_layout paper imgs f s Hs Hfs)
    as (before & after & k & Hbody).
  assert (imgs !! Z.to_nat (len imgs + index f) = Some (image_of imgs f)) as Himg.
  { unfold image_of, py_getitem, len in *.
    rewrite bool_decide_eq_false_2 by lia.
    rewrite bool_decide_eq_true_2 by lia.
    destruct (imgs !! Z.to_nat (Z.of_nat (length imgs) + index f)) eqn:Hl; [done|].
    apply lookup_ge_None in Hl. lia. }
  exists (layout paper imgs), (image_of imgs f), before, after, k.
  done.
Qed.

End MoreRuns.

(** * Strings *)

Section Strings.
Variable sp : ascii -> bool.

Lemma str_lstrip_head s :
  str_lstrip sp s = EmptyString
  \/ exists c r, str_lstrip sp s = String c r /\ sp c = false.
Proof.
  induction s as [|c s IH]; [by left|].
  cbn [str_lstrip]. destruct (sp c) eqn:Hc; [exact IH|].
  right. by exists c, s.
Qed.

Lemma str_rstrip_cons c s :
  sp c = false -> str_rstrip sp (String c s) = String c (str_rstrip sp s).
Proof. intros Hc. cbn [str_rstrip]. rewrite Hc. by destruct (str_rstrip sp s). Qed.

Lemma str_rstrip_idem s : str_rstrip sp (str_rstrip sp s) = str_rstrip sp s.
Proof.
  induction s as [|c s IH]; [done|].
  cbn [str_rstrip]. destruct (str_rstrip sp s) as [|a r] eqn:Hr.
  - destruct (sp c) eqn:Hc; [done|]. cbn [str_rstrip]. by rewrite Hc.
  - change (str_rstrip sp (String c (String a r)))
      with (match str_rstrip sp (String a r) with
            | EmptyString => if sp c then EmptyString else String c EmptyString
            | String _ _ as r0 => String c r0
            end).
    by rewrite IH.
Qed.

Lemma str_strip_idem s : str_strip sp (str_strip sp s) = str_strip sp s.
Proof.
  unfold str_strip.
  destruct (str_lstrip_head s) as [-> | (c & r & -> & Hc)]; [done|].
  rewrite (str_rstrip_cons c r Hc). cbn [str_lstrip]. rewrite Hc.
  rewrite <- (str_rstrip_cons c r Hc). apply str_rstrip_idem.
Qed.

Lemma str_lstrip_chars (P : ascii -> Prop) s :
  Forall P (list_ascii_of_string s) -> Forall P (list_ascii_of_string (str_lstrip sp s)).
Proof.
  induction s as [|c s IH]; [done|].
  cbn [str_lstrip list_ascii_of_string]. intros [Hc Hs]%Forall_cons.
  destruct (sp c); [by apply IH|]. by apply Forall_cons.
Qed.

Lemma str_rstrip_chars (P : ascii -> Prop) s :
  Forall P (list_ascii_of_string s) -> Forall P (list_ascii_of_string (str_rstrip sp s)).
Proof.
  induction s as [|c s IH]; [done|].
  cbn [str_rstrip list_ascii_of_string]. intros [Hc Hs]%Forall_cons.
  specialize (IH Hs). destruct (str_rstrip sp s) as [|a r].
  - destruct (sp c); [done|]. by apply Forall_cons.
  - by apply Forall_cons.
Qed.

Lemma str_filter_chars s :
  Forall (fun c => sp c = true) (list_ascii_of_string (str_filter sp s)).
Proof.
  induction s as [|c s IH]; [done|].
  cbn [str_filter]. destruct (sp c) eqn:Hc; [|done].
  by apply Forall_cons.
Qed.

Lemma str_lstrip_length s : (String.length (str_lstrip sp s) <= String.length s)%nat.
Proof.
  induction s as [|c s IH]; [done|].
  cbn [str_lstrip]. destruct (sp c); cbn [String.length]; lia.
Qed.

Lemma str_rstrip_length s : (String.length (str_rstrip sp s) <= String.length s)%nat.
Proof.
  induction s as [|c s IH]; [done|].
  cbn [str_rstrip]. destruct (str_rstrip sp s) as [|a r].
  - destruct (sp c); cbn [String.length]; lia.
  - cbn [String.length] in *. lia.
Qed.

Lemma str_filter_length s : (String.length (str_filter sp s) <= String.length s)%nat.
Proof.
  induction s as [|c s IH]; [done|].
  cbn [str_filter]. destruct (sp c); cbn [String.length]; lia.
Qed.

Lemma str_take_length n s : (String.length (str_take n s) <= n)%nat.
Proof.
  revert s. induction n as [|n IH]; intros [|c s]; cbn [str_take String.length]; try lia.
  specialize (IH s). lia.
Qed.

Lemma sapp_cons c s r : String c s +:+ r = String c (s +:+ r).
Proof. reflexivity. Qed.

Lemma sapp_nil r : EmptyString +:+ r = r.
Proof. reflexivity. Qed.

Lemma prefix_app s r : String.prefix s (s +:+ r) = true.
Proof.
  induction s as [|c s IH]; [by destruct r|].
  rewrite sapp_cons. cbn [String.prefix]. by destruct (ascii_dec c c).
Qed.

Lemma str_drop_app s r : str_drop (String.length s) (s +:+ r) = r.
Proof. induction s as [|c s IH]; [by destruct r|]. exact IH. Qed.

Lemma str_partition_eq sep s :
  str_partition sep s
  = if String.prefix sep s then Some (EmptyString, str_drop (String.length sep) s)
    else match s with
         | EmptyString => None
         | String c s' =>
             match str_partition sep s' with
             | Some (before, after) => Some (String c before, after)
             | None => None
             end
         end.
Proof. by destruct s. Qed.

Lemma str_partition_first a sep before rest :
  Forall (fun c => c <> a) (list_ascii_of_string before) ->
  str_partition (String a sep) (before +:+ String a sep +:+ rest) = Some (before, rest).
Proof.
  induction before as [|c s IH]; intros Hno.
  - rewrite sapp_nil, str_partition_eq, prefix_app.
    by rewrite (str_drop_app (String a sep)).
  - cbn [list_ascii_of_string] in Hno. apply Forall_cons in Hno as [Hc Hs].
    rewrite sapp_cons, str_partition_eq. cbn [String.prefix].
    destruct (ascii_dec a c) as [->|_]; [done|]. by rewrite IH.
Qed.

Lemma str_partition_None a sep s :
  Forall (fun c => c <> a) (list_ascii_of_string s) ->
  str_partition (String a sep) s = None.
Proof.
  induction s as [|c s IH]; intros Hno; [done|].
  cbn [list_ascii_of_string] in Hno. apply Forall_cons in Hno as [Hc Hs].
  rewrite str_partition_eq. cbn [String.prefix].
  destruct (ascii_dec a c) as [->|_]; [done|]. by rewrite IH.
Qed.

Lemma str_lstrip_spaces ws s :
  Forall (fun c => sp c = true) (list_ascii_of_string ws) ->
  str_lstrip sp (ws +:+ s) = str_lstrip sp s.
Proof.
  induction ws as [|c ws IH]; intros Hws; [done|].
  cbn [list_ascii_of_string] in Hws. apply Forall_cons in Hws as [Hc Hws].
  rewrite sapp_cons. cbn [str_lstrip]. rewrite Hc. by apply IH.
Qed.

Lemma str_rstrip_spaces s ws :
  Forall (fun c => sp c = true) (list_ascii_of_string ws) ->
  str_rstrip sp (s +:+ ws) = str_rstrip sp s.
Proof.
  intros Hws. induction s as [|c s IH].
  - rewrite sapp_nil. induction ws as [|c ws IH]; [done|].
    cbn [list_ascii_of_string] in Hws. apply Forall_cons in Hws as [Hc Hws].
    cbn [str_rstrip]. by rewrite IH, Hc.
  - rewrite sapp_cons. cbn [str_rstrip]. by rewrite IH.
Qed.

Lemma from_first_app c before rest :
  Forall (fun a => a <> c) (list_ascii_of_string before) ->
  from_first c (before +:+ String c rest) = Some (String c rest).
Proof.
  induction before as [|a s IH]; intros Hno.
  - rewrite sapp_nil. cbn [from_first]. by rewrite Ascii.eqb_refl.
  - cbn [list_ascii_of_string] in Hno. apply Forall_cons in Hno as [Ha Hs].
    rewrite sapp_cons. cbn [from_first].
    apply Ascii.eqb_neq in Ha as ->. by apply IH.
Qed.

Lemma upto_last_None c s :
  Forall (fun a => a <> c) (list_ascii_of_string s) -> upto_last c s = None.
Proof.
  induction s as [|a s IH]; intros Hno; [done|].
  cbn [list_ascii_of_string] in Hno. apply Forall_cons in Hno as [Ha Hs].
  cbn [upto_last]. rewrite IH by done. by apply Ascii.eqb_neq in Ha as ->.
Qed.

Lemma upto_last_app c s after :
  Forall (fun a => a <> c) (list_ascii_of_string after) ->
  upto_last c (s +:+ String c after) = Some (s +:+ String c EmptyString).
Proof.
  intros Hno. induction s as [|a s IH].
  - rewrite !sapp_nil. cbn [upto_last]. rewrite upto_last_None by done.
    by rewrite Ascii.eqb_refl.
  - rewrite !sapp_cons. cbn [upto_last]. by rewrite IH.
Qed.

Lemma list_ascii_of_string_app s r :
  list_ascii_of_string (s +:+ r) = list_ascii_of_string s ++ list_ascii_of_string r.
Proof.
  induction s as [|c s IH]; [done|].
  rewrite sapp_cons. cbn [list_ascii_of_string]. by rewrite IH.
Qed.

Lemma sapp_assoc s r t : (s +:+ r) +:+ t = s +:+ r +:+ t.
Proof. induction s as [|c s IH]; [done|]. rewrite !sapp_cons. by rewrite IH. Qed.

End Strings.

(** * The text-structuring service *)

Section Structuring.
Context {R : Runtime} {S : Services}.

Lemma validated_flat_map (sections : list SectionData) :
  flat_map (fun section_data =>
              let heading0 := default "Untitled Section" (sd_heading section_data) in
              let content0 := default EmptyString (sd_content section_data) in
              if bool_decide (content0 ≠ EmptyString)
              then [ {| heading := heading0; content := content0 |} ]
              else [])
           sections
  = as_section <$> filter has_content sections.
Proof.
  induction sections as [|sd l IH]; [done|].
  cbv zeta in *. cbn [flat_map]. rewrite IH.
  case_bool_decide as Hc.
  - rewrite filter_cons_True by exact Hc. done.
  - rewrite filter_cons_False by (intros H; exact (H Hc)). done.
Qed.

Lemma existsb_elem_of {A} (f : A -> bool) (l : list A) :
  existsb f l = true <-> exists x, x ∈ l /\ f x = true.
Proof.
  rewrite existsb_exists. split; intros (x & Hx & Hf); exists x;
    (split; [by apply list_elem_of_In|done]).
Qed.

(** The three shapes of the list [_validate_and_fix_sections] returns. *)
Lemma validate_cases (sections : list SectionData) :
  let kept := as_section <$> filter has_content sections in
  let has_intro := existsb (fun s => bool_decide (lower (heading s) = "introduction")) kept in
  let has_conclusion := existsb (fun s => bool_decide (lower (heading s) = "conclusion")) kept in
  _validate_and_fix_sections sections
  = (if negb has_intro && bool_decide (kept ≠ [])
     then [ {| heading := "Introduction";
               content := "This paper presents the research and findings discussed in the following sections." |} ]
     else [])
    ++ kept
    ++ (if negb has_conclusion && bool_decide (kept ≠ [])
        then [ {| heading := "Conclusion";
                  content := "This paper has presented the key findings and contributions of the research." |} ]
        else []).
Proof.
  intros kept has_intro has_conclusion.
  unfold _validate_and_fix_sections. rewrite validated_flat_map.
  cbv zeta. fold kept. fold has_intro. fold has_conclusion.
  clearbody has_intro has_conclusion. clearbody kept.
  destruct kept as [|s kept], has_intro, has_conclusion;
    cbn; rewrite ?app_nil_r; reflexivity.
Qed.

(** X7: [_validate_and_fix_sections] returns the sections of the answer
    that have content, in their order and as one block, with at most one
    section put before them and at most one after; every section it
    returns has content; and it returns no section exactly when no
    section of the answer has content. *)
Theorem X7_validated_sections_shape (sections : list SectionData) :
  let out := _validate_and_fix_sections sections in
  (exists before after,
      out = before ++ (as_section <$> filter has_content sections) ++ after
      /\ (length before <= 1)%nat /\ (length after <= 1)%nat)
  /\ Forall (fun s => content s <> EmptyString) out
  /\ (out = [] <-> Forall (fun sd => ~ has_content sd) sections).
Proof.
  intros out. unfold out. rewrite validate_cases.
  set (kept := as_section <$> filter has_content sections).
  assert (Forall (fun s => content s <> EmptyString) kept) as Hkept.
  { unfold kept. apply Forall_fmap, Forall_forall. intros sd Hsd.
    apply list_elem_of_filter in Hsd as [Hsd _]. exact Hsd. }
  assert (kept = [] <-> Forall (fun sd => ~ has_content sd) sections) as Hnil.
  { unfold kept. split.
    - intros Hf. apply fmap_nil_inv in Hf. apply Forall_forall. intros sd Hsd Hc.
      assert (sd ∈ filter has_content sections) as Hin
        by (apply list_elem_of_filter; done).
      rewrite Hf in Hin. by apply elem_of_nil in Hin.
    - intros Hall. by rewrite (filter_Forall_not _ _ Hall). }
  split; [|split].
  - eexists _, _. split; [reflexivity|].
    split; [destruct (_ && _)|destruct (_ && _)]; simpl; lia.
  - apply Forall_app. split; [|apply Forall_app; split; [done|]].
    + destruct (_ && _); [|done]. by apply Forall_singleton.
    + destruct (_ && _); [|done]. by apply Forall_singleton.
  - rewrite <- Hnil. split.
    + intros Happ. apply app_eq_nil in Happ as [_ Happ].
      by apply app_eq_nil in Happ as [? _].
    + intros ->. by rewrite !andb_false_r.
Qed.

Lemma validate_has_content (sections : list SectionData) :
  Forall (fun s => content s <> EmptyString) (_validate_and_fix_sections sections).
Proof.
  rewrite validate_cases.
  apply Forall_app. split; [|apply Forall_app; split].
  - destruct (_ && _); [|done]. by apply Forall_singleton.
  - apply Forall_fmap, Forall_forall. intros sd Hsd.
    apply list_elem_of_filter in Hsd as [Hsd _]. exact Hsd.
  - destruct (_ && _); [|done]. by apply Forall_singleton.
Qed.

Lemma as_section_as_data (out : list PaperSection) :
  Forall (fun s => content s <> EmptyString) out ->
  as_section <$> filter has_content (as_data <$> out) = out.
Proof.
  induction 1 as [|s l Hs _ IH]; [done|].
  rewrite fmap_cons, filter_cons_True by exact Hs.
  rewrite fmap_cons, IH. by destruct s.
Qed.

Section Folding.
Hypothesis lower_Introduction : lower "Introduction" = "introduction".
Hypothesis lower_Conclusion : lower "Conclusion" = "conclusion".

Lemma validate_has_intro (sections : list SectionData) :
  _validate_and_fix_sections sections <> [] ->
  existsb (fun s => bool_decide (lower (heading s) = "introduction"))
    (_validate_and_fix_sections sections) = true.
Proof.
  rewrite validate_cases.
  set (kept := as_section <$> filter has_content sections). clearbody kept.
  destruct kept as [|k kept]; [intros H; by cbn in H|].
  intros _. rewrite (bool_decide_true (k :: kept ≠ [])), !andb_true_r by done.
  destruct (existsb (fun s => bool_decide (lower (heading s) = "introduction"))
              (k :: kept)) eqn:Hintro; cbn [negb].
  - by rewrite !existsb_app, Hintro.
  - rewrite existsb_app. cbn [existsb heading].
    by rewrite (bool_decide_true (lower "Introduction" = _)).
Qed.

Lemma validate_has_conclusion (sections : list SectionData) :
  _validate_and_fix_sections sections <> [] ->
  existsb (fun s => bool_decide (lower (heading s) = "conclusion"))
    (_validate_and_fix_sections sections) = true.
Proof.
  rewrite validate_cases.
  set (kept := as_section <$> filter has_content sections). clearbody kept.
  destruct kept as [|k kept]; [intros H; by cbn in H|].
  intros _. rewrite (bool_decide_true (k :: kept ≠ [])), !andb_true_r by done.
  destruct (existsb (fun s => bool_decide (lower (heading s) = "conclusion"))
              (k :: kept)) eqn:Hconcl; cbn [negb].
  - by rewrite !existsb_app, Hconcl, orb_true_r.
  - rewrite !existsb_app. cbn [existsb heading].
    by rewrite (bool_decide_true (lower "Conclusion" = _)), !orb_true_r.
Qed.

(** X8: where lower-casing "Introduction" and "Conclusion" gives
    "introduction" and "conclusion", a non-empty list returned by
    [_validate_and_fix_sections] has a section headed introduction and
    one headed conclusion (up to case), and the function changes nothing
    when it is given its own output back. *)
Theorem X8_validated_sections_closed (sections : list SectionData) :
  let out := _validate_and_fix_sections sections in
  (out <> [] ->
   (exists s, s ∈ out /\ lower (heading s) = "introduction")
   /\ (exists s, s ∈ out /\ lower (heading s) = "conclusion"))
  /\ _validate_and_fix_sections (as_data <$> out) = out.
Proof.
  intros out. split.
  - intros Hout. split.
    + apply validate_has_intro, existsb_elem_of in Hout as (s & Hs & Hl).
      exists s. split; [done|]. by apply bool_decide_eq_true in Hl.
    + apply validate_has_conclusion, existsb_elem_of in Hout as (s & Hs & Hl).
      exists s. split; [done|]. by apply bool_decide_eq_true in Hl.
  - rewrite validate_cases.
    rewrite as_section_as_data by apply validate_has_content.
    fold out. destruct (decide (out = [])) as [Hnil|Hne].
    + rewrite Hnil. done.
    + unfold out. rewrite validate_has_intro, validate_has_conclusion by exact Hne.
      cbn [negb andb app]. by rewrite app_nil_r.
Qed.

End Folding.

(** ** The text handed to the JSON parser *)

(** X21: an answer that wraps its JSON text in a fenced block, tagged
    "json" or not, with white space around the text inside the fences
    and anything before and after the block, is cleaned to that text:
    provided the back quote is not white space, no back quote precedes
    the block or occurs in the text, the text is non-empty and has no
    white space at either end and, in a block without tag, what follows
    the opening fence does not start with the letter j. *)
Theorem X21_fenced_answer_extracted (before tag ws1 payload ws2 after : string) :
  isspace "`"%char = false ->
  Forall (fun c => c <> "`"%char) (list_ascii_of_string before) ->
  Forall (fun c => c <> "`"%char) (list_ascii_of_string payload) ->
  Forall (fun c => isspace c = true) (list_ascii_of_string ws1) ->
  Forall (fun c => isspace c = true) (list_ascii_of_string ws2) ->
  payload <> EmptyString ->
  str_lstrip isspace payload = payload ->
  str_rstrip isspace payload = payload ->
  tag = "json" \/ (tag = EmptyString /\ forall r, ws1 +:+ payload <> String "j" r) ->
  _clean_json_response
    (before +:+ fence +:+ tag +:+ ws1 +:+ payload +:+ ws2 +:+ fence +:+ after)
  = payload.
Proof.
  intros Hq Hbefore Hpayload Hws1 Hws2 Hne Hl Hr Htag. unfold fence.
  set (rest := ws1 +:+ payload +:+ ws2 +:+ "```" +:+ after).
  assert (fenced (before +:+ "```" +:+ tag +:+ rest) = Some payload) as Hfenced.
  { unfold fenced, fence.
    rewrite (str_partition_first "`" "``" before) by done.
    assert ((if String.prefix "json" (tag +:+ rest)
             then str_drop 4 (tag +:+ rest) else tag +:+ rest) = rest) as ->.
    { destruct Htag as [-> | [-> Hj]].
      - rewrite prefix_app. apply (str_drop_app "json").
      - rewrite sapp_nil. unfold rest. rewrite <- sapp_assoc.
        destruct (ws1 +:+ payload) as [|c r] eqn:Hwp.
        + destruct ws1; [|done]. by rewrite sapp_nil in Hwp.
        + rewrite sapp_cons. cbn [String.prefix].
          destruct (ascii_dec "j" c) as [<-|_]; [|done]. by destruct (Hj r). }
    unfold rest. rewrite str_lstrip_spaces by done.
    assert (str_lstrip isspace (payload +:+ ws2 +:+ "```" +:+ after)
            = payload +:+ ws2 +:+ "```" +:+ after) as ->.
    { destruct payload as [|c r]; [done|].
      rewrite sapp_cons. cbn [str_lstrip] in Hl |- *.
      destruct (isspace c); [|done].
      pose proof (str_lstrip_length isspace r) as Hlen.
      rewrite Hl in Hlen. cbn [String.length] in Hlen. lia. }
    rewrite <- sapp_assoc.
    rewrite (str_partition_first "`" "``" (payload +:+ ws2)).
    - by rewrite str_rstrip_spaces, Hr.
    - rewrite list_ascii_of_string_app. apply Forall_app. split; [done|].
      eapply Forall_impl; [exact Hws2|]. intros c Hc ->. congruence. }
  unfold _clean_json_response. fold rest. rewrite Hfenced.
  unfold str_strip. by rewrite Hl, Hr.
Qed.

(** X22: an answer without back quotes is cleaned to the text from its
    first opening brace to its last closing brace. *)
Theorem X22_braced_answer_extracted (before inner after : string) :
  Forall (fun c => c <> "`"%char) (list_ascii_of_string (before +:+ inner +:+ after)) ->
  Forall (fun c => c <> "{"%char) (list_ascii_of_string before) ->
  Forall (fun c => c <> "}"%char) (list_ascii_of_string after) ->
  _clean_json_response (before +:+ "{" +:+ inner +:+ "}" +:+ after)
  = "{" +:+ inner +:+ "}".
Proof.
  intros Hq Hbefore Hafter.
  change (before +:+ "{" +:+ inner +:+ "}" +:+ after)
    with (before +:+ String "{" (inner +:+ String "}" after)).
  unfold _clean_json_response, fenced, fence.
  rewrite (str_partition_None "`" "``").
  2:{ rewrite !list_ascii_of_string_app in Hq.
      apply Forall_app in Hq as [Hq1 Hq2]. apply Forall_app in Hq2 as [Hq2 Hq3].
      rewrite list_ascii_of_string_app. cbn [list_ascii_of_string].
      rewrite list_ascii_of_string_app. cbn [list_ascii_of_string].
      apply Forall_app; split; [done|]. apply Forall_cons; split; [done|].
      apply Forall_app; split; [done|]. apply Forall_cons; split; done. }
  unfold braced. rewrite from_first_app by done.
  change (String "{" (inner +:+ String "}" after))
    with (String "{" inner +:+ String "}" after).
  rewrite upto_last_app by done. by rewrite sapp_cons.
Qed.

(** ** The figures of the paper *)

Lemma filter_Forall_all {A} (Q : A -> Prop) `{!forall x, Decision (Q x)} (l : list A) :
  Forall Q l -> filter Q l = l.
Proof.
  induction 1 as [|x l Hx _ IH]; [done|]. by rewrite filter_cons_True, IH.
Qed.

Lemma build_figures_fmap (figs : list FigureData) (sections : list PaperSection) n :
  build_figures figs sections n
  = as_figure sections <$> filter (fun fd => default 0 (fd_index fd) < n) figs.
Proof.
  unfold build_figures.
  induction figs as [|fd l IH]; [done|].
  cbn [flat_map]. rewrite IH.
  case_bool_decide as Hc.
  - rewrite filter_cons_True by exact Hc. done.
  - rewrite filter_cons_False by exact Hc. done.
Qed.

Lemma build_figures_in_range (figs : list FigureData) sections images :
  Forall (in_range images) (build_figures figs sections (len images)).
Proof.
  rewrite build_figures_fmap. apply Forall_fmap, Forall_forall.
  intros fd Hfd. apply list_elem_of_filter in Hfd as [Hfd _]. exact Hfd.
Qed.

(** X9: the figures of the paper [process_content] builds are those of
    the answer whose index is below the number of images, in their
    order; so when the generator is given that many images every one of
    them passes its index check, and the figures rendered after a
    section are all those placed in it. *)
Theorem X9_built_figures_pass_index_check (paper_data : PaperData) (images : list bytes) :
  let paper := build_paper paper_data (len images) in
  figures paper
  = as_figure (sections paper)
      <$> filter (fun fd => default 0 (fd_index fd) < len images)
            (default [] (pd_figures paper_data))
  /\ Forall (in_range images) (figures paper)
  /\ forall s,
       section_figures (figures paper) images s
       = filter (fun f => lower (placement f) = lower (heading s)) (figures paper).
Proof.
  intros paper. split; [|split].
  - apply build_figures_fmap.
  - apply build_figures_in_range.
  - intros s. unfold section_figures.
    apply filter_Forall_all, Forall_forall. intros f Hf.
    apply list_elem_of_filter in Hf as [_ Hf].
    pose proof (build_figures_in_range (default [] (pd_figures paper_data))
                  (sections paper) images) as Hall.
    rewrite Forall_forall in Hall. by apply Hall.
Qed.

(** X10: a figure of the answer that names no placement and passes the
    index check is placed in the first section of the paper, and is
    among the figures rendered after it; when the paper has no section
    its placement is "Introduction" and no figure is rendered after any
    section. *)
Theorem X10_figure_without_placement (paper_data : PaperData) (images : list bytes)
    (fig_data : FigureData) :
  let paper := build_paper paper_data (len images) in
  let f := as_figure (sections paper) fig_data in
  fig_data ∈ default [] (pd_figures paper_data) ->
  fd_placement fig_data = None ->
  default 0 (fd_index fig_data) < len images ->
  f ∈ figures paper
  /\ match sections paper with
     | s :: _ => placement f = heading s
                 /\ f ∈ section_figures (figures paper) images s
     | [] => placement f = "Introduction"
             /\ rendered (figures paper) images (sections paper) = []
     end.
Proof.
  intros paper f Hin Hpl Hidx.
  assert (f ∈ figures paper) as Hf.
  { unfold paper, build_paper; cbn [figures]. rewrite build_figures_fmap.
    apply list_elem_of_fmap. exists fig_data. split; [done|].
    apply list_elem_of_filter. done. }
  split; [done|].
  destruct (sections paper) as [|s ss] eqn:Hss.
  - split; [by unfold f, as_figure; cbn; rewrite Hpl|done].
  - assert (placement f = heading s) as Hp
      by (unfold f, as_figure; cbn; by rewrite Hpl).
    split; [done|].
    unfold section_figures. rewrite !list_elem_of_filter.
    split; [exact Hidx|]. split; [by rewrite Hp|done].
Qed.

End Structuring.

(** * The handlers *)

Section Handlers.
Context {R : Runtime} {S : Services}.

Lemma read_images_spec (images : list UploadFile) : forall acc,
  exists n : nat,
    (read_images images acc).1 = acc ++ (file_data <$> take n images)
    /\ Forall small (take n images)
    /\ match (read_images images acc).2 with
       | None => take n images = images
       | Some img => images !! n = Some img /\ ~ small img
       end.
Proof.
  induction images as [|img l IH]; intros acc.
  - exists 0%nat. cbn. by rewrite app_nil_r.
  - cbn [read_images]. case_bool_decide as Hbig.
    + exists 0%nat. cbn. rewrite app_nil_r. repeat split; [done|].
      unfold small. lia.
    + destruct (IH (acc ++ [file_data img])) as (n & Hst & Hsm & Hov).
      exists (Datatypes.S n). rewrite Hst. cbn [take fmap list_fmap].
      rewrite <- app_assoc. split; [done|]. split.
      * apply Forall_cons. split; [unfold small; lia|done].
      * destruct (read_images l _).2; [done|]. by rewrite Hov.
Qed.

Lemma read_images_small (images : list UploadFile) acc :
  Forall small images ->
  read_images images acc = (acc ++ (file_data <$> images), None).
Proof.
  revert acc. induction images as [|img l IH]; intros acc Hall.
  - cbn. by rewrite app_nil_r.
  - apply Forall_cons in Hall as [Himg Hl].
    cbn [read_images]. rewrite bool_decide_false by (unfold small in Himg; lia).
    rewrite IH by done. by rewrite <- app_assoc.
Qed.

Lemma read_images_oversize (before after : list UploadFile) img acc :
  Forall small before -> ~ small img ->
  read_images (before ++ img :: after) acc = (acc ++ (file_data <$> before), Some img).
Proof.
  revert acc. induction before as [|x l IH]; intros acc Hall Himg.
  - cbn [app read_images]. rewrite bool_decide_true by (unfold small in Himg; lia).
    cbn. by rewrite app_nil_r.
  - apply Forall_cons in Hall as [Hx Hl].
    cbn [app read_images]. rewrite bool_decide_false by (unfold small in Hx; lia).
    rewrite IH by done. by rewrite <- app_assoc.
Qed.

Lemma generate_paper_except_failure (e : web_exn) :
  exists msg, generate_paper_except e = GeneratePaperResponse false None (Some msg).
Proof. destruct e; eexists; reflexivity. Qed.


(** X12: a request within the two limits is never answered with an HTTP
    error.  It reports success exactly when it returns a paper and no
    error message; the session images become the data of a prefix of the
    uploads, each within the size limit, whatever the outcome; the
    session paper becomes the returned paper on success and is kept on
    failure; the generator is not touched. *)
Theorem X12_generate_paper_accepted (raw_content : string)
    (images : list UploadFile) (g : Globals) :
  str_len raw_content <= MAX_CONTENT_LENGTH -> len images <= MAX_IMAGES ->
  exists success paper error g',
    generate_paper raw_content images g
    = (GeneratePaperResponse success paper error, g')
    /\ (exists n : nat, _session_images g' = file_data <$> take n images
                       /\ Forall small (take n images))
    /\ _generator g' = _generator g
    /\ (if success
        then is_Some paper /\ error = None /\ _session_paper g' = paper
             /\ _session_images g' = file_data <$> images
        else paper = None /\ is_Some error /\ _session_paper g' = _session_paper g).
Proof.
  intros Hc Hi. unfold generate_paper.
  rewrite !bool_decide_false by lia.
  destruct (read_images_spec images []) as (n & Hst & Hsm & Hov).
  destruct (read_images images []) as [stored oversize]. cbn [fst snd] in *.
  rewrite app_nil_l in Hst. subst stored.
  destruct oversize as [img|].
  { destruct (generate_paper_except_failure
                (HTTPException 400
                   ("Image " +:+ filename img +:+ " exceeds maximum size of "
                    +:+ str MAX_IMAGE_SIZE_MB +:+ "MB"))) as [msg ->].
    eexists false, None, (Some msg), _. split; [reflexivity|].
    cbn. eauto 10. }
  destruct (get_ai_processor (_processor g)) as [[[]|e] processor'].
  2:{ destruct (generate_paper_except_failure e) as [msg ->].
      eexists false, None, (Some msg), _. split; [reflexivity|].
      cbn. eauto 10. }
  destruct (process_content _ _) as [paper|e].
  - eexists true, (Some paper), None, _. split; [reflexivity|].
    cbn. split; [by exists n|]. rewrite Hov. eauto 10.
  - destruct (generate_paper_except_failure e) as [msg ->].
    eexists false, None, (Some msg), _. split; [reflexivity|].
    cbn. eauto 10.
Qed.

(** X13: when an upload exceeds the size limit, the [HTTPException]
    raised for it is caught by the handler's own [except Exception]: the
    request is answered with [success=False] and the message "Unexpected
    error: ..." instead of status 400, the session images are left as
    the uploads that came before the oversize one, the session paper is
    kept and the model is not called. *)
Theorem X13_oversize_image_not_rejected (raw_content : string)
    (before after : list UploadFile) (img : UploadFile) (g : Globals) :
  str_len raw_content <= MAX_CONTENT_LENGTH ->
  len (before ++ img :: after) <= MAX_IMAGES ->
  Forall small before -> ~ small img ->
  generate_paper raw_content (before ++ img :: after) g
  = (GeneratePaperResponse false None
       (Some ("Unexpected error: "
              +:+ str_HTTPException 400
                    ("Image " +:+ filename img +:+ " exceeds maximum size of 5MB"))),
     {| _session_images := file_data <$> before;
        _session_paper := _session_paper g;
        _generator := _generator g;
        _processor := _processor g |}).
Proof.
  intros Hc Hi Hsmall Hbig. unfold generate_paper.
  rewrite !bool_decide_false by lia.
  rewrite read_images_oversize by done. reflexivity.
Qed.

Lemma get_ai_processor_ok (p : bool) u p' :
  get_ai_processor p = (inl u, p') -> p' = true.
Proof.
  unfold get_ai_processor. destruct p; [by intros [= _ <-]|].
  destruct AIProcessor__init__ as [[]|e]; by intros [= <-].
Qed.

(** X14: a request within the limits, with a processor at hand, an
    answer of the model and a JSON object parsed from the cleaned
    answer, succeeds with the paper built from that object for as many
    images as were uploaded, and stores all the uploads and that paper
    in the session. *)
Theorem X14_generate_paper_success (raw_content : string)
    (images : list UploadFile) (g : Globals) (response_text : string)
    (paper_data : PaperData) :
  str_len raw_content <= MAX_CONTENT_LENGTH -> len images <= MAX_IMAGES ->
  Forall small images ->
  (get_ai_processor (_processor g)).1 = inl tt ->
  generate_content (user_prompt raw_content (len images)) = inl response_text ->
  json_loads (_clean_json_response response_text) = Parsed paper_data ->
  let paper := build_paper paper_data (len images) in
  generate_paper raw_content images g
  = (GeneratePaperResponse true (Some paper) None,
     {| _session_images := file_data <$> images;
        _session_paper := Some paper;
        _generator := _generator g;
        _processor := true |}).
Proof.
  intros Hc Hi Hsmall Hproc Htext Hjson paper. unfold generate_paper.
  rewrite !bool_decide_false by lia.
  rewrite read_images_small by done. rewrite app_nil_l.
  destruct (get_ai_processor (_processor g)) as [r processor'] eqn:Hget.
  cbn in Hproc. subst r. apply get_ai_processor_ok in Hget as ->.
  assert (len (file_data <$> images) = len images) as ->
    by (unfold len; by rewrite length_fmap).
  unfold process_content. rewrite Htext, Hjson. reflexivity.
Qed.

(** X15: while the API key is unset or empty, every request within the
    limits whose uploads pass the size check is answered with
    [success=False] and the message of the [ValueError] of
    [AIProcessor.__init__]; the uploads replace the session images all
    the same, and no processor is kept, so the next request tries
    again. *)
Theorem X15_missing_api_key (raw_content : string)
    (images : list UploadFile) (g : Globals) :
  GEMINI_API_KEY = None \/ GEMINI_API_KEY = Some EmptyString ->
  _processor g = false ->
  str_len raw_content <= MAX_CONTENT_LENGTH -> len images <= MAX_IMAGES ->
  Forall small images ->
  generate_paper raw_content images g
  = (GeneratePaperResponse false None
       (Some "GEMINI_API_KEY environment variable is not set"),
     {| _session_images := file_data <$> images;
        _session_paper := _session_paper g;
        _generator := _generator g;
        _processor := false |}).
Proof.
  intros Hkey Hproc Hc Hi Hsmall. unfold generate_paper.
  rewrite !bool_decide_false by lia.
  rewrite read_images_small by done. rewrite app_nil_l.
  unfold get_ai_processor, AIProcessor__init__. rewrite Hproc.
  destruct Hkey as [-> | ->]; reflexivity.
Qed.

(** X16: [process_content] raises nothing but a [ValueError] whose
    message starts with "Failed to parse AI response as JSON: " and a
    [RuntimeError] whose message starts with "AI processing failed: ";
    the paper it returns has content in every section and no figure
    whose index reaches the number of images. *)
Theorem X16_process_content_outcomes (raw_content : string) (image_count : Z) :
  match process_content raw_content image_count with
  | inl paper =>
      Forall (fun s => content s <> EmptyString) (sections paper)
      /\ Forall (fun f => index f < image_count) (figures paper)
  | inr e =>
      (exists msg, e = ValueError ("Failed to parse AI response as JSON: " +:+ msg))
      \/ (exists msg, e = RuntimeError ("AI processing failed: " +:+ msg))
  end.
Proof.
  unfold process_content.
  destruct (generate_content _) as [response_text|msg]; [|right; by eexists].
  destruct (json_loads _) as [paper_data|msg|msg];
    [|left; by eexists|right; by eexists].
  split.
  - apply validate_has_content.
  - cbn [figures build_paper]. rewrite build_figures_fmap.
    apply Forall_fmap, Forall_forall. intros fd Hfd.
    apply list_elem_of_filter in Hfd as [Hfd _]. exact Hfd.
Qed.


(** ** Export *)

(** The call of the generator in [export_docx], from whatever generator
    the module holds. *)
Lemma export_docx_run (paper : StructuredPaper) (images : list bytes)
    (generator : option IEEEDocxGenerator) :
  let ok := Forall (fetchable images)
              (rendered (figures paper) images (sections paper)) in
  (ok ->
   export_docx paper images generator
   = (inl (save (layout paper images)),
      Some (st (layout paper images) (final_counter paper images) 0)))
  /\ (~ ok -> exists self',
        export_docx paper images generator = (inr IndexError, Some self')).
Proof.
  intros ok. unfold export_docx.
  destruct (get_docx_generator generator) as [self o].
  destruct (generate_run paper (Some images) self) as [Hok Hraise].
  cbn [or_empty] in Hok, Hraise.
  split; intros H.
  - by rewrite (Hok H).
  - destruct (Hraise H) as [self' ->]. by exists self'.
Qed.



Lemma layout_without_images (paper : StructuredPaper) :
  (forall f, f ∈ figures paper -> 0 <= index f) ->
  layout paper [] = layout (with_figures paper []) [].
Proof.
  intros Hidx.
  assert (forall s, section_figures (figures paper) [] s = []) as Hnone.
  { intros s. unfold section_figures. apply filter_Forall_not, Forall_forall.
    intros f Hf. apply list_elem_of_filter in Hf as [_ Hf].
    unfold in_range, len. cbn. specialize (Hidx f Hf). lia. }
  assert (forall ss, rendered (figures paper) [] ss = []) as Hrend.
  { intros ss. unfold rendered. induction ss as [|s ss IH]; [done|].
    cbn [flat_map]. by rewrite Hnone, IH. }
  unfold layout. cbn [with_figures figures sections references].
  rewrite Hrend. f_equal. f_equal. f_equal. unfold section_blocks. apply imap_ext.
  intros n s _. unfold section_block. cbn beta. by rewrite Hnone.
Qed.


End Handlers.

(** * Concrete runs, on the ASCII runtime *)

Section Concrete.
Import AsciiRuntime Examples.

(** The first example of the specification. *)
Example two_sections_one_reference :
  (fun d => filter (fun p => sectPr p = None) (drop 4 (body d)))
    <$> document_of (generate two_images None __init__)
  = Some [ heading_paragraph "I. INTRODUCTION";
           text_paragraph "A." (Some "IEEE Body");
           heading_paragraph "II. CONCLUSION";
           text_paragraph "B." (Some "IEEE Body");
           heading_paragraph "REFERENCES";
           reference_paragraph 1 "[ref]" ].
Proof. reflexivity. Qed.

Example sample_captions :
  captions <$> document_of (generate sample (Some sample_images) __init__)
  = Some [ [TextRun "Fig. 1. " true false; TextRun "cap" false false];
           [TextRun "Fig. 2. " true false; TextRun "cap" false false];
           [TextRun "Fig. 4. " true false; TextRun "Figure 3" false false];
           [TextRun "Fig. 6. " true false; TextRun "Figure 5" false false] ].
Proof. reflexivity. Qed.

Example negative_index_raises :
  raised (generate (mk_paper [intro] [ {| index := -3; caption := "c";
                                          placement := "Introduction" |} ] [])
            (Some [png]) __init__)
  = Some IndexError.
Proof. reflexivity. Qed.

(** C1: with no figure and two images, the first rendered figure is
    captioned "Fig. 2." and the second "Fig. 4.": the sweep increments
    the counter itself and [_add_figure] increments it again, so the
    numbers of swept figures neither start at 1 nor grow by 1. *)
Theorem C1_swept_figures_skip_numbers :
  captions <$> document_of (generate two_images (Some [png; jpg]) __init__)
  = Some [ [TextRun "Fig. 2. " true false; TextRun "Figure 1" false false];
           [TextRun "Fig. 4. " true false; TextRun "Figure 3" false false] ].
Proof. reflexivity. Qed.


(** No figure of the sample paper has an index below [-len(images)]. *)
Lemma sample_indices :
  forall f, f ∈ figures sample ->
            - len (or_empty (Some sample_images)) <= index f.
Proof.
  intros f Hf. simpl in Hf. rewrite !elem_of_cons, elem_of_nil in Hf.
  destruct Hf as [->|[->|[->|[]]]]; unfold len; simpl; lia.
Qed.

Lemma sample_returns :
  generate sample (Some sample_images) __init__ = returned sample sample_images.
Proof. reflexivity. Qed.








Lemma C9_witness :
  fig_lost ∈ figures sample
  /\ (forall s, s ∈ sections sample -> lower (placement fig_lost) <> lower (heading s))
  /\ add_remaining_image (placed_indices (figures sample)) 1 jpg
       (st new_Document 2 0)
     = Return tt (st new_Document 2 0).
Proof.
  assert (fig_lost ∈ figures sample) as Hin.
  { simpl. do 2 apply list_elem_of_further. apply list_elem_of_here. }
  assert (forall s, s ∈ sections sample ->
                    lower (placement fig_lost) <> lower (heading s)) as Hno.
  { intros s Hs. simpl in Hs. rewrite !elem_of_cons, elem_of_nil in Hs.
    destruct Hs as [->|[->|[->|[]]]]; discriminate. }
  split; [exact Hin|]. split; [exact Hno|].
  exact (proj2 (proj2 (C9_unmatched_placement_rendered_nowhere
                         sample sample_images fig_lost Hin Hno)) jpg _).
Defined.


End Concrete.

(** * Further runs, on the ASCII runtime and the sample service *)

Section MoreConcrete.
Import AsciiRuntime Examples Samples.





Lemma X6_witness :
  - len (or_empty (Some [png; jpg])) <= index fig_last < 0
  /\ exists d img before after k,
       doc (st (layout last_image [png; jpg]) (final_counter last_image [png; jpg]) 0)
       = Some d
       /\ save (layout last_image [png; jpg]) = save d
       /\ or_empty (Some [png; jpg])
            !! Z.to_nat (len (or_empty (Some [png; jpg])) + index fig_last)
          = Some img
       /\ body d = before ++ [image_paragraph img; caption_paragraph k (caption fig_last)]
                   ++ after.
Proof.
  assert (- len (or_empty (Some [png; jpg])) <= index fig_last < 0) as Hidx
    by (unfold len; simpl; lia).
  assert (generate last_image (Some [png; jpg]) __init__
          = returned last_image [png; jpg]) as Hgen by reflexivity.
  destruct (X6_negative_index_counts_from_end last_image (Some [png; jpg]) fig_last
              intro __init__ (list_elem_of_here _ _) (list_elem_of_here _ _)
              eq_refl Hidx) as [Hdoc _].
  split; [exact Hidx|]. exact (Hdoc _ _ Hgen).
Defined.

Lemma X8_witness :
  lower "Introduction" = "introduction"
  /\ lower "Conclusion" = "conclusion"
  /\ let out := _validate_and_fix_sections
                  (default [] (pd_sections (methods_answer []))) in
     (out <> [] ->
      (exists s, s ∈ out /\ lower (heading s) = "introduction")
      /\ (exists s, s ∈ out /\ lower (heading s) = "conclusion"))
     /\ _validate_and_fix_sections (as_data <$> out) = out.
Proof.
  split; [reflexivity|]. split; [reflexivity|].
  exact (X8_validated_sections_closed eq_refl eq_refl
           (default [] (pd_sections (methods_answer [])))).
Defined.

Lemma X10_witness :
  let paper := build_paper (methods_answer [fd_unplaced]) (len [png; jpg]) in
  let f := as_figure (sections paper) fd_unplaced in
  default 0 (fd_index fd_unplaced) < len [png; jpg]
  /\ f ∈ figures paper
  /\ match sections paper with
     | s :: _ => placement f = heading s
                 /\ f ∈ section_figures (figures paper) [png; jpg] s
     | [] => placement f = "Introduction"
             /\ rendered (figures paper) [png; jpg] (sections paper) = []
     end.
Proof.
  assert (default 0 (fd_index fd_unplaced) < len [png; jpg]) as Hidx
    by (unfold len; simpl; lia).
  split; [exact Hidx|].
  exact (X10_figure_without_placement (methods_answer [fd_unplaced]) [png; jpg]
           fd_unplaced (list_elem_of_here _ _) eq_refl Hidx).
Defined.


Lemma X12_witness :
  str_len "Some notes." <= MAX_CONTENT_LENGTH
  /\ len [upload "a.png" png; oversize] <= MAX_IMAGES
  /\ exists success paper error g',
       generate_paper "Some notes." [upload "a.png" png; oversize] fresh
       = (GeneratePaperResponse success paper error, g')
       /\ (exists n : nat,
             _session_images g'
             = file_data <$> take n [upload "a.png" png; oversize]
             /\ Forall small (take n [upload "a.png" png; oversize]))
       /\ _generator g' = _generator fresh
       /\ (if success
           then is_Some paper /\ error = None /\ _session_paper g' = paper
                /\ _session_images g'
                   = file_data <$> [upload "a.png" png; oversize]
           else paper = None /\ is_Some error
                /\ _session_paper g' = _session_paper fresh).
Proof.
  assert (str_len "Some notes." <= MAX_CONTENT_LENGTH) as Hc
    by (vm_compute; discriminate).
  assert (len [upload "a.png" png; oversize] <= MAX_IMAGES) as Hi
    by (unfold len, MAX_IMAGES; cbn [length]; lia).
  split; [exact Hc|]. split; [exact Hi|].
  exact (X12_generate_paper_accepted "Some notes." _ fresh Hc Hi).
Defined.

Lemma oversize_not_small : ~ small oversize.
Proof.
  unfold small, oversize, upload, len, MAX_IMAGE_SIZE_MB. cbn [file_data].
  rewrite length_replicate, Z2Nat.id by lia. lia.
Qed.

Lemma X13_witness :
  Forall small [upload "a.png" png]
  /\ ~ small oversize
  /\ generate_paper "Some notes." ([upload "a.png" png] ++ oversize :: []) fresh
     = (GeneratePaperResponse false None
          (Some ("Unexpected error: "
                 +:+ str_HTTPException 400
                       ("Image " +:+ filename oversize
                        +:+ " exceeds maximum size of 5MB"))),
        {| _session_images := file_data <$> [upload "a.png" png];
           _session_paper := _session_paper fresh;
           _generator := _generator fresh;
           _processor := _processor fresh |}).
Proof.
  assert (Forall small [upload "a.png" png]) as Hsmall
    by (apply Forall_singleton; vm_compute; discriminate).
  assert (str_len "Some notes." <= MAX_CONTENT_LENGTH) as Hc
    by (vm_compute; discriminate).
  assert (len ([upload "a.png" png] ++ oversize :: []) <= MAX_IMAGES) as Hi
    by (unfold len, MAX_IMAGES; cbn [length app]; lia).
  split; [exact Hsmall|]. split; [exact oversize_not_small|].
  exact (X13_oversize_image_not_rejected "Some notes." _ [] oversize fresh
           Hc Hi Hsmall oversize_not_small).
Defined.

Lemma X14_witness :
  let images := [upload "a.png" png; upload "b.jpg" jpg] in
  json_loads (_clean_json_response sample_response) = Parsed empty_answer
  /\ generate_paper "Some notes." images fresh
     = (GeneratePaperResponse true (Some (build_paper empty_answer (len images))) None,
        {| _session_images := file_data <$> images;
           _session_paper := Some (build_paper empty_answer (len images));
           _generator := _generator fresh;
           _processor := true |}).
Proof.
  intros images.
  assert (json_loads (_clean_json_response sample_response) = Parsed empty_answer)
    as Hjson by reflexivity.
  assert (str_len "Some notes." <= MAX_CONTENT_LENGTH) as Hc
    by (vm_compute; discriminate).
  assert (len images <= MAX_IMAGES) as Hi by (vm_compute; discriminate).
  assert (Forall small images) as Hsmall
    by (repeat apply Forall_cons_2; try apply Forall_nil_2; vm_compute; discriminate).
  split; [exact Hjson|].
  exact (X14_generate_paper_success "Some notes." images fresh sample_response
           empty_answer Hc Hi Hsmall eq_refl eq_refl Hjson).
Defined.

Lemma X15_witness :
  let images := [upload "a.png" png; upload "b.jpg" jpg] in
  @generate_paper _ keyless_services "Some notes." images fresh
  = (GeneratePaperResponse false None
       (Some "GEMINI_API_KEY environment variable is not set"),
     {| _session_images := file_data <$> images;
        _session_paper := _session_paper fresh;
        _generator := _generator fresh;
        _processor := false |}).
Proof.
  intros images.
  assert (str_len "Some notes." <= MAX_CONTENT_LENGTH) as Hc
    by (vm_compute; discriminate).
  assert (len images <= MAX_IMAGES) as Hi by (vm_compute; discriminate).
  assert (Forall small images) as Hsmall
    by (repeat apply Forall_cons_2; try apply Forall_nil_2; vm_compute; discriminate).
  exact (@X15_missing_api_key _ keyless_services "Some notes." images fresh
           (or_introl eq_refl) eq_refl Hc Hi Hsmall).
Defined.

Lemma sample_fetchable :
  Forall (fetchable sample_images)
    (rendered (figures sample) sample_images (sections sample)).
Proof.
  apply Forall_forall. intros f Hf.
  apply rendered_subseteq in Hf as [Hf _]. by apply sample_indices.
Qed.



Lemma two_images_indices : forall f, f ∈ figures two_images -> 0 <= index f.
Proof. intros f Hf. by apply elem_of_nil in Hf. Qed.

Lemma sample_nonnegative : forall f, f ∈ figures sample -> 0 <= index f.
Proof.
  intros f Hf. simpl in Hf. rewrite !elem_of_cons, elem_of_nil in Hf.
  destruct Hf as [->|[->|[->|[]]]]; simpl; lia.
Qed.


Lemma X21_witness :
  _clean_json_response
    ("Here is the paper:" +:+ nl +:+ fence +:+ "json" +:+ nl +:+ "{}" +:+ nl
     +:+ fence +:+ EmptyString)
  = "{}".
Proof.
  apply (X21_fenced_answer_extracted ("Here is the paper:" +:+ nl) "json" nl "{}" nl
           EmptyString).
  - reflexivity.
  - vm_compute. repeat (apply Forall_cons_2; [discriminate|]). apply Forall_nil_2.
  - vm_compute. repeat (apply Forall_cons_2; [discriminate|]). apply Forall_nil_2.
  - vm_compute. repeat (apply Forall_cons_2; [reflexivity|]). apply Forall_nil_2.
  - vm_compute. repeat (apply Forall_cons_2; [reflexivity|]). apply Forall_nil_2.
  - discriminate.
  - reflexivity.
  - reflexivity.
  - by left.
Defined.

Lemma X22_witness :
  _clean_json_response ("Sure: " +:+ "{" +:+ "a{}b" +:+ "}" +:+ " done.")
  = "{" +:+ "a{}b" +:+ "}".
Proof.
  apply (X22_braced_answer_extracted "Sure: " "a{}b" " done.").
  - vm_compute. repeat (apply Forall_cons_2; [discriminate|]). apply Forall_nil_2.
  - vm_compute. repeat (apply Forall_cons_2; [discriminate|]). apply Forall_nil_2.
  - vm_compute. repeat (apply Forall_cons_2; [discriminate|]). apply Forall_nil_2.
Defined.

End MoreConcrete.
